(** * deepxde.data.triple: the [Triple] and [TripleCartesianProd] datasets

    A shallow embedding of [deepxde/data/triple.py].  Python objects are
    records whose attributes are optional (an attribute that was never
    assigned is [None] here and reading it raises [AttributeError]); methods
    are computations in a state-and-exception monad over the instance, so that
    an exception leaves behind exactly the attributes assigned before it.
    NumPy arrays are a shape together with the entries in row-major order.
    Tuples of arrays are lists; a batch size is [None] or a natural number. *)

From stdpp Require Import base tactics option list strings pretty.
From Stdlib Require Import Lia.

(** ** Python exceptions and the method monad *)

Module Py.

Inductive exn : Type :=
| ValueError (msg : string)
| TypeError (msg : string)
| IndexError (msg : string)
| AttributeError (attr : string)
| NotFittedError.

Inductive outcome (A : Type) : Type :=
| Ok (a : A)
| Raise (e : exn).
Global Arguments Ok {A} a.
Global Arguments Raise {A} e.

(** A method body running on an instance of type [S]. *)
Definition M (S A : Type) : Type := S -> outcome A * S.

Definition ret {S A} (a : A) : M S A := fun s => (Ok a, s).

Definition raise {S A} (e : exn) : M S A := fun s => (Raise e, s).

Definition bind {S A B} (m : M S A) (k : A -> M S B) : M S B :=
  fun s =>
    match m s with
    | (Ok a, s') => k a s'
    | (Raise e, s') => (Raise e, s')
    end.

(** An expression that may raise but does not touch the instance. *)
Definition lift {S A} (o : outcome A) : M S A := fun s => (o, s).

(** [self.name] *)
Definition getattr {S A} (name : string) (field : S -> option A) : M S A :=
  fun s =>
    match field s with
    | Some v => (Ok v, s)
    | None => (Raise (AttributeError name), s)
    end.

(** [self.name = v], given as the record update it performs. *)
Definition setattr {S} (update : S -> S) : M S unit :=
  fun s => (Ok tt, update s).

(** [t[i]] on a tuple. *)
Definition tuple_getitem {A} (t : list A) (i : nat) : outcome A :=
  match t !! i with
  | Some x => Ok x
  | None => Raise (IndexError "tuple index out of range")
  end.

(** [if c: body] *)
Definition when {S} (c : bool) (body : M S unit) : M S unit :=
  if c then body else ret tt.

(** [map(f, xs)] consumed to the end: the results in order, or the first
    exception. *)
Fixpoint traverse {A B} (f : A -> outcome B) (xs : list A) : outcome (list B) :=
  match xs with
  | [] => Ok []
  | x :: xs' =>
      match f x with
      | Raise e => Raise e
      | Ok y =>
          match traverse f xs' with
          | Raise e => Raise e
          | Ok ys => Ok (y :: ys)
          end
      end
  end.

Definition is_ok {A} (o : outcome A) : bool :=
  match o with Ok _ => true | Raise _ => false end.

(** [needle in text] on strings. *)
Fixpoint contains (needle text : string) : bool :=
  String.prefix needle text ||
  match text with
  | EmptyString => false
  | String _ rest => contains needle rest
  end.

(** The message spells out the number [n] in decimal. *)
Definition mentions (n : nat) (msg : string) : bool := contains (pretty n) msg.

End Py.

Export Py.

Declare Scope py_scope.
Delimit Scope py_scope with py.
Notation "x <- m ;; k" := (Py.bind m (fun x => k))
  (at level 100, m at next level, right associativity, only parsing) : py_scope.
Notation "m ;; k" := (Py.bind m (fun _ => k))
  (at level 100, right associativity, only parsing) : py_scope.
Open Scope py_scope.

(** ** NumPy arrays *)

Module NumPy.
Section Arrays.
Context {elt : Type}.

Record ndarray : Type := mk_ndarray { shape : list nat; data : list elt }.

Definition prod (dims : list nat) : nat := foldr Nat.mul 1 dims.

(** [a.size]: the number of entries, the product of the shape. *)
Definition size (a : ndarray) : nat := prod (shape a).

(** The entries fill the shape. *)
Definition well_formed (a : ndarray) : Prop := length (data a) = size a.

(** [len(a)]: the extent of the first axis; unsized for a 0-d array. *)
Definition len (a : ndarray) : outcome nat :=
  match shape a with
  | [] => Raise (TypeError "len() of unsized object")
  | n :: _ => Ok n
  end.

(** Entries per index of the first axis. *)
Definition row_size (a : ndarray) : nat := prod (tail (shape a)).

(** [a[i]], flattened. *)
Definition row (a : ndarray) (i : nat) : list elt :=
  take (row_size a) (drop (i * row_size a) (data a)).

(** [a[indices]] for a one-dimensional integer index array: the selected
    entries of the first axis, in the order of [indices]. *)
Definition getitem (a : ndarray) (indices : list nat) : outcome ndarray :=
  match shape a with
  | [] => Raise (IndexError "too many indices for array")
  | n :: rest =>
      if forallb (fun i => i <? n) indices
      then Ok (mk_ndarray (length indices :: rest) (flat_map (row a) indices))
      else Raise (IndexError "index is out of bounds for axis 0")
  end.

(** [len(X[i])] for a tuple of arrays [X]. *)
Definition rows (X : list ndarray) (i : nat) : outcome nat :=
  match tuple_getitem X i with
  | Ok a => len a
  | Raise e => Raise e
  end.

End Arrays.
Global Arguments ndarray : clear implicits.
Global Arguments rows {elt} X i : simpl never.
Global Arguments getitem {elt} a indices : simpl never.
End NumPy.

Export NumPy.

(** ** The batch sampler *)

(** Modelled from the spec: [BatchSampler] of [deepxde/data/sampler.py], which
    the datasets import but which is not part of the sources at hand.  The
    datasets use its constructor [BatchSampler(n, shuffle)] and
    [get_next(batch_size)], which advances the sampler. *)
Class BatchSamplerAPI : Type := {
  sampler : Type;
  BatchSampler : nat -> bool -> sampler;
  get_next : nat -> sampler -> list nat * sampler
}.

(** Modelled from the spec: [get_next(batch_size)] "returns an ordered
    sequence of [batch_size] indices". *)
Class BatchSamplerContract `{BatchSamplerAPI} : Prop := {
  get_next_length : forall k s, length (get_next k s).1 = k
}.

(** The sampler as the spec describes it.  The random permutations are an
    input of the model: [permutation e n] is the ordering of [0, n) drawn
    for epoch [e]. *)
Module SamplerSpec.
Section Spec.
Variable permutation : nat -> nat -> list nat.

(** Modelled from the spec: [BatchSampler] "owns [n] (total elements),
    [shuffle] flag, current permutation of [0,n), and a cursor"; the number
    of the epoch selects the permutation drawn. *)
Record state : Type := mk_state {
  num_samples : nat;
  shuffle : bool;
  ordering : list nat;
  cursor : nat;
  epoch : nat
}.

(** Modelled from the spec: the ordering of an epoch is the "identity order
    if [shuffle=false], else a freshly drawn random permutation". *)
Definition fresh_ordering (n : nat) (shuffle : bool) (e : nat) : list nat :=
  if shuffle then permutation e n else seq 0 n.

(** Modelled from the spec: [construct(n, shuffle)] "initializes a
    full-coverage ordering over [0,n) and a cursor at 0". *)
Definition construct (n : nat) (shuffle : bool) : state :=
  mk_state n shuffle (fresh_ordering n shuffle 0) 0 0.

(** Modelled from the spec: "when the cursor reaches [n], a new epoch
    begins" with an ordering of its own and the cursor back at 0. *)
Definition new_epoch (s : state) : state :=
  mk_state (num_samples s) (shuffle s)
    (fresh_ordering (num_samples s) (shuffle s) (S (epoch s))) 0 (S (epoch s)).

(** Modelled from the spec: one index of [get_next], "drawn by advancing the
    cursor through the current ordering", after starting a new epoch if the
    cursor has reached [n]. *)
Definition draw (s : state) : nat * state :=
  let s := if cursor s <? num_samples s then s else new_epoch s in
  (default 0 (ordering s !! cursor s),
   mk_state (num_samples s) (shuffle s) (ordering s) (S (cursor s)) (epoch s)).

(** Modelled from the spec: [get_next(batch_size)] "returns an ordered
    sequence of [batch_size] indices"; a call may span an epoch boundary, and
    [batch_size] may exceed [n]. *)
Fixpoint get_next (batch_size : nat) (s : state) : list nat * state :=
  match batch_size with
  | 0 => ([], s)
  | S k =>
      let '(i, s1) := draw s in
      let '(rest, s2) := get_next k s1 in
      (i :: rest, s2)
  end.

(** The ordering held by a sampler covers indices below [n] only and has
    [n] entries. *)
Definition valid (s : state) : Prop :=
  length (ordering s) = num_samples s /\
  Forall (fun i => i < num_samples s) (ordering s).

End Spec.

(** The sampler of the spec, for a given source of permutations. *)
Definition api (permutation : nat -> nat -> list nat) : BatchSamplerAPI :=
  Build_BatchSamplerAPI state (construct permutation) (get_next permutation).

End SamplerSpec.

(** ** The feature scaler *)

(** [sklearn.preprocessing.StandardScaler] is an external library; its
    input validation and its arithmetic are parameters.
    [fit_statistics with_mean with_std X] are the per-column statistics of
    [X] and [apply_statistics] is the per-column affine map they define; both
    validate the array they are given and may raise (the library raises
    [ValueError] for an array that is not two-dimensional, that is empty or
    not finite, or whose number of columns is not the one seen when
    fitting). *)
Class ScalerBackend (elt : Type) : Type := {
  statistics : Type;
  fit_statistics : bool -> bool -> ndarray elt -> outcome statistics;
  apply_statistics : statistics -> ndarray elt -> outcome (ndarray elt)
}.

Module Sklearn.
Section Scaler.
Context {elt : Type} {scaling : ScalerBackend elt}.

(** A [StandardScaler] object: its options and, once fitted, the statistics
    it holds. *)
Record StandardScaler : Type := mk_scaler {
  with_mean : bool;
  with_std : bool;
  fitted : option statistics
}.

(** [StandardScaler(with_mean=.., with_std=..)] *)
Definition new (with_mean with_std : bool) : StandardScaler :=
  mk_scaler with_mean with_std None.

(** [scaler.fit_transform(X)], that is [scaler.fit(X).transform(X)]: fits
    on [X], keeps the statistics in the scaler and returns [X] transformed
    with them; a rejected [X] raises. *)
Definition fit_transform (X : ndarray elt) : M StandardScaler (ndarray elt) :=
  fun scaler =>
    match fit_statistics (with_mean scaler) (with_std scaler) X with
    | Raise e => (Raise e, scaler)
    | Ok st =>
        (apply_statistics st X,
         mk_scaler (with_mean scaler) (with_std scaler) (Some st))
    end.

(** [scaler.transform(X)]: applies the statistics held by the scaler, which
    it leaves as they are; a rejected [X] raises. *)
Definition transform (X : ndarray elt) : M StandardScaler (ndarray elt) :=
  fun scaler =>
    match fitted scaler with
    | Some st => (apply_statistics st X, scaler)
    | None => (Raise NotFittedError, scaler)
    end.

End Scaler.
Global Arguments StandardScaler elt {_}.
End Sklearn.

(** ** The dataset interface *)

(** The methods through which a trainer uses a dataset, as a class body
    defines them: [None] where the body has no such [def].  Both classes
    derive from [Data], which is not part of the sources at hand; a method a
    class body lacks is looked up in the base class. *)
Module Interface.
Section Interface.
Context {elt : Type}.

Record class_body (instance : Type) : Type := mk_class_body {
  def_losses :
    option (forall tensor value model : Type,
      tensor -> tensor -> (tensor -> tensor -> value) -> model ->
      M instance (list value));
  def_train_next_batch :
    option (option nat -> M instance (list (ndarray elt) * ndarray elt));
  def_test : option (M instance (list (ndarray elt) * ndarray elt));
  def_transform_inputs :
    option (list (ndarray elt) -> M instance (list (ndarray elt)))
}.
Global Arguments mk_class_body {instance}.
Global Arguments def_losses {instance}.
Global Arguments def_train_next_batch {instance}.
Global Arguments def_test {instance}.
Global Arguments def_transform_inputs {instance}.

(** Attribute lookup on the class, then on its base. *)
Definition lookup {A} (own base : option A) : option A :=
  match own with
  | Some m => Some m
  | None => base
  end.

Definition inherit {instance} (own base : class_body instance) : class_body instance :=
  mk_class_body
    (lookup (def_losses own) (def_losses base))
    (lookup (def_train_next_batch own) (def_train_next_batch base))
    (lookup (def_test own) (def_test base))
    (lookup (def_transform_inputs own) (def_transform_inputs base)).

(** A base class that defines none of the four. *)
Definition bare_base {instance} : class_body instance :=
  mk_class_body None None None None.

End Interface.
Global Arguments class_body elt instance : clear implicits.
End Interface.

(** ** [class Triple(Data)] *)

Module Triple.
Section Class.
Context {elt : Type} {sampling : BatchSamplerAPI} {scaling : ScalerBackend elt}.

Abbreviation array := (ndarray elt).
Abbreviation scaler := (Sklearn.StandardScaler elt).

(** The attributes of an instance.  [scaler_x] is [Some None] when the
    attribute holds Python's [None]. *)
Record instance : Type := mk_instance {
  train_x : option (list array);
  train_y : option array;
  test_x : option (list array);
  test_y : option array;
  scaler_x : option (option (list scaler));
  train_sampler : option sampler
}.

(** An instance before [__init__] has run. *)
Definition blank : instance := mk_instance None None None None None None.

Definition set_train_x (v : list array) (s : instance) : instance :=
  mk_instance (Some v) (train_y s) (test_x s) (test_y s) (scaler_x s) (train_sampler s).
Definition set_train_y (v : array) (s : instance) : instance :=
  mk_instance (train_x s) (Some v) (test_x s) (test_y s) (scaler_x s) (train_sampler s).
Definition set_test_x (v : list array) (s : instance) : instance :=
  mk_instance (train_x s) (train_y s) (Some v) (test_y s) (scaler_x s) (train_sampler s).
Definition set_test_y (v : array) (s : instance) : instance :=
  mk_instance (train_x s) (train_y s) (test_x s) (Some v) (scaler_x s) (train_sampler s).
Definition set_scaler_x (v : option (list scaler)) (s : instance) : instance :=
  mk_instance (train_x s) (train_y s) (test_x s) (test_y s) (Some v) (train_sampler s).
Definition set_train_sampler (v : sampler) (s : instance) : instance :=
  mk_instance (train_x s) (train_y s) (test_x s) (test_y s) (scaler_x s) (Some v).

(** The local function of [_standardize]: a new scaler is fitted on [X1],
    then applied to [X2]. *)
Definition standardize_one (X1 X2 : array) : outcome (scaler * array * array) :=
  let body : M scaler (array * array) :=
    (X1' <- Sklearn.fit_transform X1;;
     X2' <- Sklearn.transform X2;;
     ret (X1', X2')) in
  match body (Sklearn.new true true) with
  | (Ok (X1', X2'), sc) => Ok (sc, X1', X2')
  | (Raise e, _) => Raise e
  end.

(** [zip( *map(standardize_one, self.train_x, self.test_x))] unpacked into
    three targets: [map] stops at the shorter of the two tuples, and
    unpacking an empty [zip] raises. *)
Definition _standardize : M instance unit :=
  X <- getattr "train_x" train_x;;
  X' <- getattr "test_x" test_x;;
  triples <- lift (traverse (fun p => standardize_one p.1 p.2) (zip X X'));;
  match triples with
  | [] => raise (ValueError "not enough values to unpack (expected 3, got 0)")
  | _ =>
      setattr (set_scaler_x (Some (map (fun t => t.1.1) triples)));;
      setattr (set_train_x (map (fun t => t.1.2) triples));;
      setattr (set_test_x (map (fun t => t.2) triples))
  end.

Definition __init__ (X_train : list array) (y_train : array)
    (X_test : list array) (y_test : array) (standardize : bool) : M instance unit :=
  setattr (set_train_x X_train);;
  setattr (set_train_y y_train);;
  setattr (set_test_x X_test);;
  setattr (set_test_y y_test);;
  setattr (set_scaler_x None);;
  when standardize _standardize;;
  y <- getattr "train_y" train_y;;
  n <- lift (len y);;
  setattr (set_train_sampler (BatchSampler n true)).

Definition losses {tensor value model : Type} (targets outputs : tensor)
    (loss : tensor -> tensor -> value) (_ : model) : M instance (list value) :=
  ret [loss targets outputs].

Definition train_next_batch (batch_size : option nat)
    : M instance (list array * array) :=
  match batch_size with
  | None =>
      x <- getattr "train_x" train_x;;
      y <- getattr "train_y" train_y;;
      ret (x, y)
  | Some k =>
      smp <- getattr "train_sampler" train_sampler;;
      let '(indices, smp') := get_next k smp in
      setattr (set_train_sampler smp');;
      x <- getattr "train_x" train_x;;
      x0 <- lift (tuple_getitem x 0);;
      a <- lift (getitem x0 indices);;
      x <- getattr "train_x" train_x;;
      x1 <- lift (tuple_getitem x 1);;
      b <- lift (getitem x1 indices);;
      y <- getattr "train_y" train_y;;
      yb <- lift (getitem y indices);;
      ret ([a; b], yb)
  end.

Definition test : M instance (list array * array) :=
  x <- getattr "test_x" test_x;;
  y <- getattr "test_y" test_y;;
  ret (x, y).

(** [list(map(lambda scaler, xi: scaler.transform(xi), self.scaler_x, x))] *)
Definition transform_inputs (x : list array) : M instance (list array) :=
  sx <- getattr "scaler_x" scaler_x;;
  match sx with
  | None => ret x
  | Some scalers =>
      lift (traverse (fun p => (Sklearn.transform p.2 p.1).1) (zip scalers x))
  end.

(** The states an instance can be in after further calls of its methods. *)
Inductive later (s : instance) : instance -> Prop :=
| later_now : later s s
| later_batch s1 batch_size :
    later s s1 -> later s (train_next_batch batch_size s1).2
| later_test s1 : later s s1 -> later s (test s1).2
| later_transform s1 x : later s s1 -> later s (transform_inputs x s1).2
| later_losses s1 (tensor value model : Type) (targets outputs : tensor)
    (loss : tensor -> tensor -> value) (m : model) :
    later s s1 -> later s (losses targets outputs loss m s1).2.

(** The class body of [Triple]. *)
Definition methods : Interface.class_body elt instance :=
  Interface.mk_class_body
    (Some (fun tensor value model => @losses tensor value model))
    (Some train_next_batch)
    (Some test)
    (Some transform_inputs).

End Class.
Global Arguments instance elt {_ _}.
End Triple.

(** ** [class TripleCartesianProd(Data)] *)

Module TripleCartesianProd.
Section Class.
Context {elt : Type} {sampling : BatchSamplerAPI}.

Abbreviation array := (ndarray elt).

Record instance : Type := mk_instance {
  train_x : option (list array);
  train_y : option array;
  test_x : option (list array);
  test_y : option array;
  train_sampler : option sampler
}.

Definition blank : instance := mk_instance None None None None None.

Definition set_train_x (v : list array) (s : instance) : instance :=
  mk_instance (Some v) (train_y s) (test_x s) (test_y s) (train_sampler s).
Definition set_train_y (v : array) (s : instance) : instance :=
  mk_instance (train_x s) (Some v) (test_x s) (test_y s) (train_sampler s).
Definition set_test_x (v : list array) (s : instance) : instance :=
  mk_instance (train_x s) (train_y s) (Some v) (test_y s) (train_sampler s).
Definition set_test_y (v : array) (s : instance) : instance :=
  mk_instance (train_x s) (train_y s) (test_x s) (Some v) (train_sampler s).
Definition set_train_sampler (v : sampler) (s : instance) : instance :=
  mk_instance (train_x s) (train_y s) (test_x s) (test_y s) (Some v).

Definition training_message : string :=
  "The training dataset does not have the format of Cartesian product.".
Definition testing_message : string :=
  "The testing dataset does not have the format of Cartesian product.".

Definition __init__ (X_train : list array) (y_train : array)
    (X_test : list array) (y_test : array) : M instance unit :=
  n1 <- lift (rows X_train 0);;
  n2 <- lift (rows X_train 1);;
  when (negb (n1 * n2 =? size y_train))
    (raise (ValueError training_message));;
  n1' <- lift (rows X_test 0);;
  n2' <- lift (rows X_test 1);;
  when (negb (n1' * n2' =? size y_test))
    (raise (ValueError testing_message));;
  setattr (set_train_x X_train);;
  setattr (set_train_y y_train);;
  setattr (set_test_x X_test);;
  setattr (set_test_y y_test);;
  n <- lift (rows X_train 0);;
  setattr (set_train_sampler (BatchSampler n true)).

Definition losses {tensor value model : Type} (targets outputs : tensor)
    (loss : tensor -> tensor -> value) (_ : model) : M instance (list value) :=
  ret [loss targets outputs].

Definition train_next_batch (batch_size : option nat)
    : M instance (list array * array) :=
  match batch_size with
  | None =>
      x <- getattr "train_x" train_x;;
      y <- getattr "train_y" train_y;;
      ret (x, y)
  | Some k =>
      smp <- getattr "train_sampler" train_sampler;;
      let '(indices, smp') := get_next k smp in
      setattr (set_train_sampler smp');;
      x <- getattr "train_x" train_x;;
      x0 <- lift (tuple_getitem x 0);;
      a <- lift (getitem x0 indices);;
      x <- getattr "train_x" train_x;;
      x1 <- lift (tuple_getitem x 1);;
      y <- getattr "train_y" train_y;;
      yb <- lift (getitem y indices);;
      ret ([a; x1], yb)
  end.

Definition test : M instance (list array * array) :=
  x <- getattr "test_x" test_x;;
  y <- getattr "test_y" test_y;;
  ret (x, y).

(** The states an instance can be in after further calls of its methods. *)
Inductive later (s : instance) : instance -> Prop :=
| later_now : later s s
| later_batch s1 batch_size :
    later s s1 -> later s (train_next_batch batch_size s1).2
| later_test s1 : later s s1 -> later s (test s1).2
| later_losses s1 (tensor value model : Type) (targets outputs : tensor)
    (loss : tensor -> tensor -> value) (m : model) :
    later s s1 -> later s (losses targets outputs loss m s1).2.

(** The class body of [TripleCartesianProd]: it has no [transform_inputs]. *)
Definition methods : Interface.class_body elt instance :=
  Interface.mk_class_body
    (Some (fun tensor value model => @losses tensor value model))
    (Some train_next_batch)
    (Some test)
    None.

End Class.
Global Arguments instance elt {_}.
End TripleCartesianProd.

(** ** Concrete data for the examples *)

Module Example.

(** A source of permutations: every epoch runs through the indices in
    descending order. *)
Definition descending (e n : nat) : list nat := rev (seq 0 n).

Definition spec_sampler : BatchSamplerAPI := SamplerSpec.api descending.

(** An integer stand-in for the scaler: it accepts two-dimensional arrays
    only, with at least one row when fitting and with the number of columns
    seen when fitting when transforming; the statistics are the floor mean of
    all entries (0 without [with_mean]) and that number of columns, and the
    mean is subtracted from every entry. *)
Definition centring : ScalerBackend Z :=
  {| statistics := Z * nat;
     fit_statistics := fun with_mean _ X =>
       match shape X with
       | [S _; columns] =>
           Ok (if with_mean
               then (foldr Z.add 0 (data X) / Z.of_nat (length (data X)))%Z
               else 0%Z,
               columns)
       | _ => Raise (ValueError "Expected 2D array with at least 1 sample")
       end;
     apply_statistics := fun st X =>
       match shape X with
       | [_; columns] =>
           if columns =? st.2
           then Ok (mk_ndarray (shape X) (map (fun v => (v - st.1)%Z) (data X)))
           else Raise (ValueError "X has a different number of features")
       | _ => Raise (ValueError "Expected 2D array")
       end |}.

(** Three rows of one feature, four rows of one feature. *)
Definition A3 : ndarray Z := mk_ndarray [3; 1] [10; 20; 30]%Z.
Definition B4 : ndarray Z := mk_ndarray [4; 1] [1; 2; 3; 4]%Z.
Definition B3 : ndarray Z := mk_ndarray [3; 1] [1; 2; 3]%Z.
Definition A4 : ndarray Z := mk_ndarray [4; 1] [10; 20; 30; 40]%Z.

(** Outputs of 12 entries as a [(3, 4)] table, as a flat vector and as a
    [(4, 3)] table; of 11 and of 10 entries; and one per row of [A3]. *)
Definition entries (n : nat) : list Z := map Z.of_nat (seq 0 n).
Definition y_3x4 : ndarray Z := mk_ndarray [3; 4] (entries 12).
Definition y_flat12 : ndarray Z := mk_ndarray [12] (entries 12).
Definition y_4x3 : ndarray Z := mk_ndarray [4; 3] (entries 12).
Definition y_flat11 : ndarray Z := mk_ndarray [11] (entries 11).
Definition y_flat10 : ndarray Z := mk_ndarray [10] (entries 10).
Definition y_3x1 : ndarray Z := mk_ndarray [3; 1] [7; 8; 9]%Z.

(** Two rows of one feature, and a single test array. *)
Definition A2 : ndarray Z := mk_ndarray [2; 1] [10; 20]%Z.
Definition C3 : ndarray Z := mk_ndarray [3; 1] [4; 6; 8]%Z.

(** Two rows of two features, and a one-dimensional array. *)
Definition M22 : ndarray Z := mk_ndarray [2; 2] [1; 2; 3; 4]%Z.
Definition V3 : ndarray Z := mk_ndarray [3] [1; 2; 3]%Z.

(** A held-out split of two rows. *)
Definition A2_test : ndarray Z := mk_ndarray [2; 1] [100; 200]%Z.
Definition B2_test : ndarray Z := mk_ndarray [2; 1] [5; 7]%Z.
Definition y_2x1_test : ndarray Z := mk_ndarray [2; 1] [0; 1]%Z.

(** A Cartesian-product dataset after a successful [__init__]. *)
Definition cartesian (y : ndarray Z)
    : TripleCartesianProd.instance Z (sampling := spec_sampler) :=
  (TripleCartesianProd.__init__ (sampling := spec_sampler) [A3; B4] y [A3; B4] y
     TripleCartesianProd.blank).2.

(** A [Triple] dataset after [__init__]. *)
Definition triple (standardize : bool)
    : Triple.instance Z (sampling := spec_sampler) (scaling := centring) :=
  (Triple.__init__ (sampling := spec_sampler) (scaling := centring)
     [A3; B3] y_3x1 [A2_test; B2_test] y_2x1_test standardize Triple.blank).2.

End Example.

(** * Facts *)

(** ** Indexing arrays *)

Section ArrayFacts.
Context {elt : Type}.
Implicit Types a b : ndarray elt.

Lemma size_cons (n : nat) (rest : list nat) (d : list elt) :
  size (mk_ndarray (n :: rest) d) = n * prod rest.
Proof. reflexivity. Qed.

Lemma row_length (a : ndarray elt) (n i : nat) :
  well_formed a -> len a = Ok n -> i < n -> length (row a i) = row_size a.
Proof.
  unfold well_formed, len, row, row_size, size.
  destruct (shape a) as [|m rest] eqn:Hs; [discriminate|].
  intros Hwf [= ->] Hi. simpl in *.
  rewrite length_take, length_drop, Hwf. nia.
Qed.

Lemma chunk_lookup (r : nat) (chunks : list (list elt)) (j : nat) (c : list elt) :
  Forall (fun x => length x = r) chunks ->
  chunks !! j = Some c ->
  take r (drop (j * r) (concat chunks)) = c.
Proof.
  intros Hall. revert j.
  induction Hall as [|x xs Hx _ IH]; intros j Hj; [discriminate|].
  destruct j as [|j]; simpl in *.
  - injection Hj as <-. subst r. apply take_app_length.
  - subst r. rewrite drop_app_add. by apply IH.
Qed.

Lemma getitem_ok (a : ndarray elt) (n : nat) (indices : list nat) :
  len a = Ok n ->
  Forall (fun i => i < n) indices ->
  getitem a indices =
    Ok (mk_ndarray (length indices :: tail (shape a)) (flat_map (row a) indices)).
Proof.
  unfold len, getitem. destruct (shape a) as [|m rest]; [discriminate|].
  intros [= ->] Hall. simpl.
  replace (forallb _ indices) with true; [done|].
  symmetry. apply forallb_forall. intros i Hi.
  apply Nat.ltb_lt. rewrite Forall_forall in Hall. apply Hall.
  by apply list_elem_of_In.
Qed.

Lemma getitem_inv (a b : ndarray elt) (indices : list nat) :
  getitem a indices = Ok b ->
  exists n, len a = Ok n /\ Forall (fun i => i < n) indices /\
    b = mk_ndarray (length indices :: tail (shape a)) (flat_map (row a) indices).
Proof.
  unfold len, getitem. destruct (shape a) as [|m rest]; [discriminate|].
  destruct (forallb _ indices) eqn:Hb; [|discriminate].
  intros [= <-]. exists m. split_and!; [done| |done].
  apply Forall_forall. intros i Hi.
  rewrite forallb_forall in Hb. apply Nat.ltb_lt, Hb.
  by apply list_elem_of_In.
Qed.

Lemma getitem_out_of_bounds (a : ndarray elt) (n i : nat) (indices : list nat) :
  len a = Ok n -> i ∈ indices -> n <= i -> Py.is_ok (getitem a indices) = false.
Proof.
  unfold len, getitem. destruct (shape a) as [|m rest]; [discriminate|].
  intros [= ->] Hin Hle.
  destruct (forallb _ indices) eqn:Hb; [|done].
  rewrite forallb_forall in Hb.
  apply list_elem_of_In, Hb, Nat.ltb_lt in Hin. lia.
Qed.

(** Row [j] of [a[indices]] is row [indices[j]] of [a]. *)
Lemma getitem_row (a b : ndarray elt) (indices : list nat) (j i : nat) :
  well_formed a ->
  getitem a indices = Ok b ->
  indices !! j = Some i ->
  row b j = row a i.
Proof.
  intros Hwf Hget Hj.
  destruct (getitem_inv _ _ _ Hget) as (n & Hlen & Hall & ->).
  unfold row at 1, row_size at 1 2. simpl.
  fold (row_size a).
  rewrite flat_map_concat_map.
  apply chunk_lookup.
  - apply Forall_fmap, Forall_forall. intros x Hx. simpl.
    rewrite Forall_forall in Hall. eapply row_length; eauto.
  - by rewrite list_lookup_fmap, Hj.
Qed.

Lemma getitem_well_formed (a b : ndarray elt) (indices : list nat) :
  well_formed a -> getitem a indices = Ok b -> well_formed b.
Proof.
  intros Hwf Hget.
  destruct (getitem_inv _ _ _ Hget) as (n & Hlen & Hall & ->).
  unfold well_formed. rewrite size_cons. simpl.
  fold (row_size a). clear Hget.
  induction Hall as [|i l Hi _ IH]; simpl; [done|].
  by rewrite length_app, IH, (row_length a n i).
Qed.

End ArrayFacts.

(** ** Failing and empty index operations *)

Section ArrayEdges.
Context {elt : Type}.

Lemma getitem_raises (a : ndarray elt) (n i : nat) (indices : list nat) :
  len a = Ok n -> i ∈ indices -> n <= i ->
  getitem a indices = Raise (IndexError "index is out of bounds for axis 0").
Proof.
  unfold len, getitem. destruct (shape a) as [|m rest]; [discriminate|].
  intros [= ->] Hin Hle.
  destruct (forallb _ indices) eqn:Hb; [|done].
  rewrite forallb_forall in Hb.
  apply list_elem_of_In, Hb, Nat.ltb_lt in Hin. lia.
Qed.

Lemma getitem_unsized (a : ndarray elt) (indices : list nat) :
  shape a = [] ->
  getitem a indices = Raise (IndexError "too many indices for array").
Proof. unfold getitem. by intros ->. Qed.

Lemma getitem_nil (a : ndarray elt) (n : nat) :
  len a = Ok n -> getitem a [] = Ok (mk_ndarray (0 :: tail (shape a)) []).
Proof.
  unfold len, getitem. by destruct (shape a) as [|m rest].
Qed.

End ArrayEdges.

(** ** The sampler of the spec *)

Section SamplerFacts.
Import SamplerSpec.
Variable permutation : nat -> nat -> list nat.

Lemma spec_get_next_length (k : nat) (s : state) :
  length (get_next permutation k s).1 = k.
Proof.
  revert s. induction k as [|k IH]; intros s; cbn [get_next]; [done|].
  destruct (draw permutation s) as [i s1]. specialize (IH s1).
  destruct (get_next permutation k s1) as [rest s2]. simpl in *. by f_equal.
Qed.

(** The sampler of the spec honours the contract the datasets rely on. *)
Lemma spec_sampler_contract : @BatchSamplerContract (api permutation).
Proof. constructor. exact spec_get_next_length. Qed.

Hypothesis permutation_perm : forall e n, permutation e n ≡ₚ seq 0 n.

Lemma fresh_ordering_valid (n : nat) (sh : bool) (e : nat) :
  length (fresh_ordering permutation n sh e) = n /\
  Forall (fun i => i < n) (fresh_ordering permutation n sh e).
Proof.
  assert (Hseq : Forall (fun i => i < n) (seq 0 n)).
  { apply Forall_forall. intros i Hi. apply elem_of_seq in Hi. lia. }
  unfold fresh_ordering. destruct sh.
  - split.
    + by rewrite (Permutation_length (permutation_perm e n)), length_seq.
    + by rewrite (permutation_perm e n).
  - by rewrite length_seq.
Qed.

Lemma construct_valid (n : nat) (sh : bool) : valid (construct permutation n sh).
Proof. apply fresh_ordering_valid. Qed.

Lemma draw_valid (s : state) :
  valid s -> 0 < num_samples s ->
  valid (draw permutation s).2 /\
  num_samples (draw permutation s).2 = num_samples s /\
  (draw permutation s).1 < num_samples s.
Proof.
  intros [Hlen Hall] Hpos. unfold draw, valid.
  destruct (Nat.ltb_spec (cursor s) (num_samples s)) as [Hc|Hc]; simpl.
  - split_and!; [done..|].
    destruct (lookup_lt_is_Some_2 (ordering s) (cursor s)) as [i Hi]; [lia|].
    rewrite Hi. simpl. eapply Forall_lookup_1 in Hall; eauto.
  - destruct (fresh_ordering_valid (num_samples s) (shuffle s) (S (epoch s)))
      as [Hlen' Hall'].
    split_and!; [done..|].
    destruct (lookup_lt_is_Some_2
      (fresh_ordering permutation (num_samples s) (shuffle s) (S (epoch s))) 0)
      as [i Hi]; [lia|].
    rewrite Hi. simpl. eapply Forall_lookup_1 in Hall'; eauto.
Qed.

(** Every index handed out lies in [0, n), and the sampler stays valid. *)
Lemma get_next_valid (k : nat) (s : state) :
  valid s -> 0 < num_samples s ->
  valid (get_next permutation k s).2 /\
  num_samples (get_next permutation k s).2 = num_samples s /\
  Forall (fun i => i < num_samples s) (get_next permutation k s).1.
Proof.
  revert s. induction k as [|k IH]; intros s Hv Hpos; cbn [get_next];
    [by split_and!|].
  destruct (draw_valid s Hv Hpos) as (Hv1 & Hn1 & Hi).
  destruct (draw permutation s) as [i s1]. simpl in *.
  destruct (IH s1 Hv1) as (Hv2 & Hn2 & Hall); [lia|].
  destruct (get_next permutation k s1) as [rest s2]. simpl in *.
  split_and!; [done|congruence|].
  constructor; [done|]. by rewrite <- Hn1.
Qed.

End SamplerFacts.

(** ** Running method bodies *)

Ltac py_unfold :=
  unfold Py.bind, Py.ret, Py.raise, Py.lift, Py.getattr, Py.setattr, Py.when.

Ltac py_eval := py_unfold; cbn.

(** ** [TripleCartesianProd] *)

Section CartesianFacts.
Import TripleCartesianProd.
Context {elt : Type} {sampling : BatchSamplerAPI}.
Implicit Types (X : list (ndarray elt)) (y : ndarray elt) (s : instance elt).

(** Whatever [__init__] raises, it raises before its first assignment. *)
Lemma cartesian_init_fail_fast X y X' y' s (e : exn) :
  (__init__ X y X' y' s).1 = Raise e -> (__init__ X y X' y' s).2 = s.
Proof.
  unfold __init__. py_unfold.
  destruct (rows X 0) as [n1|]; [|done].
  destruct (rows X 1) as [n2|]; [|done].
  destruct (n1 * n2 =? size y); [|done]. cbn.
  destruct (rows X' 0) as [n1'|]; [|done].
  destruct (rows X' 1) as [n2'|]; [|done].
  destruct (n1' * n2' =? size y'); [|done]. cbn. done.
Qed.

(** The two outcomes of [__init__] on tuples whose first two entries are
    sized arrays. *)
Lemma cartesian_init_cases X y X' y' s (n1 n2 n1' n2' : nat) :
  rows X 0 = Ok n1 -> rows X 1 = Ok n2 ->
  rows X' 0 = Ok n1' -> rows X' 1 = Ok n2' ->
  __init__ X y X' y' s =
    if negb (n1 * n2 =? size y) then (Raise (ValueError training_message), s)
    else if negb (n1' * n2' =? size y') then (Raise (ValueError testing_message), s)
    else (Ok tt, mk_instance (Some X) (Some y) (Some X') (Some y')
                   (Some (BatchSampler n1 true))).
Proof.
  intros H1 H2 H1' H2'. unfold __init__. py_unfold. rewrite H1, H2.
  destruct (n1 * n2 =? size y); [|done]. cbn. rewrite H1', H2'.
  destruct (n1' * n2' =? size y'); [|done]. reflexivity.
Qed.

(** C1: on tuples of sized arrays, constructing a [TripleCartesianProd]
    raises the [ValueError] of the shape check exactly when
    [rows(A) * rows(B) <> size(y)] for the training or for the testing split;
    whenever construction raises, no attribute of the instance has been
    assigned; and when it does not raise, the five attributes are set. *)
Theorem cartesian_init_shape_mismatch X y X' y' s (n1 n2 n1' n2' : nat) :
  rows X 0 = Ok n1 -> rows X 1 = Ok n2 ->
  rows X' 0 = Ok n1' -> rows X' 1 = Ok n2' ->
  let r := __init__ X y X' y' s in
  ((exists msg, r.1 = Raise (ValueError msg)) <->
     (n1 * n2 <> size y \/ n1' * n2' <> size y')) /\
  (forall e, r.1 = Raise e -> r.2 = s) /\
  (n1 * n2 = size y -> n1' * n2' = size y' ->
     r = (Ok tt, mk_instance (Some X) (Some y) (Some X') (Some y')
                   (Some (BatchSampler n1 true)))).
Proof.
  intros H1 H2 H1' H2' r.
  assert (Hr := cartesian_init_cases X y X' y' s _ _ _ _ H1 H2 H1' H2').
  fold r in Hr. split_and!.
  - rewrite Hr.
    destruct (Nat.eqb_spec (n1 * n2) (size y)) as [Ht|Ht];
      destruct (Nat.eqb_spec (n1' * n2') (size y')) as [Ht'|Ht']; cbn;
      split; try (intros _; eauto; lia); try (intros [msg [=]]); tauto.
  - intros e. apply cartesian_init_fail_fast.
  - intros Ht Ht'. rewrite Hr.
    apply Nat.eqb_eq in Ht, Ht'. by rewrite Ht, Ht'.
Qed.

(** [train_next_batch(k)] step by step: one request to the sampler, whose new
    state is kept whatever happens next, then the two index operations. *)
Lemma cartesian_batch_eval s X y (A B : ndarray elt) (smp : sampler) (k : nat) :
  train_x s = Some X -> X !! 0 = Some A -> X !! 1 = Some B ->
  train_y s = Some y -> train_sampler s = Some smp ->
  train_next_batch (Some k) s =
    let s' := set_train_sampler (get_next k smp).2 s in
    match getitem A (get_next k smp).1 with
    | Raise e => (Raise e, s')
    | Ok a =>
        match getitem y (get_next k smp).1 with
        | Raise e => (Raise e, s')
        | Ok yb => (Ok ([a; B], yb), s')
        end
    end.
Proof.
  intros HX HA HB Hy Hs. unfold train_next_batch. py_unfold.
  rewrite Hs. destruct (get_next k smp) as [idx smp']. cbn.
  rewrite HX. unfold tuple_getitem. rewrite HA.
  destruct (getitem A idx) as [a|]; [|done].
  cbn. rewrite HX, HB. cbn. rewrite Hy.
  by destruct (getitem y idx).
Qed.

(** C2, amended: when the first axis of the stored outputs covers the
    sampled indices, as it does when the outputs are stored with shape
    [(N1, N2)], a batch of [k] is the first branch indexed by the sampled
    indices, the second branch as stored, and the outputs indexed by the same
    indices along their first axis; the sampler advances once.  The first
    branch of the batch has [k] rows, and the outputs have shape [(k, N2)]
    when they are stored with shape [(N1, N2)]: in general the shape is [k]
    followed by the trailing axes of the stored outputs.  When a sampled
    index lies beyond the first axis of the stored outputs, or the outputs
    have no axis, the batch raises [IndexError] instead, the sampler having
    advanced. *)
Theorem cartesian_train_next_batch {contract : BatchSamplerContract}
    s X y (A B : ndarray elt) (smp : sampler) (k n1 : nat) :
  train_x s = Some X -> X !! 0 = Some A -> X !! 1 = Some B ->
  train_y s = Some y -> train_sampler s = Some smp ->
  len A = Ok n1 ->
  Forall (fun i => i < n1) (get_next k smp).1 ->
  let indices := (get_next k smp).1 in
  let s' := set_train_sampler (get_next k smp).2 s in
  (forall ny, len y = Ok ny -> Forall (fun i => i < ny) indices ->
     exists a yb,
       train_next_batch (Some k) s = (Ok ([a; B], yb), s') /\
       getitem A indices = Ok a /\
       getitem y indices = Ok yb /\
       len a = Ok k /\
       shape yb = k :: tail (shape y)) /\
  (forall n2, shape y = [n1; n2] ->
     exists a yb,
       train_next_batch (Some k) s = (Ok ([a; B], yb), s') /\
       getitem A indices = Ok a /\
       getitem y indices = Ok yb /\
       len a = Ok k /\
       shape yb = [k; n2]) /\
  (forall ny i, len y = Ok ny -> i ∈ indices -> ny <= i ->
     train_next_batch (Some k) s =
       (Raise (IndexError "index is out of bounds for axis 0"), s')) /\
  (shape y = [] ->
     train_next_batch (Some k) s =
       (Raise (IndexError "too many indices for array"), s')).
Proof.
  intros HX HA HB Hy Hs HlenA Hidx indices s'.
  pose proof (cartesian_batch_eval s X y A B smp k HX HA HB Hy Hs) as Hrun.
  cbn zeta in Hrun. fold indices s' in Hrun.
  pose proof (getitem_ok A n1 _ HlenA Hidx) as Ha. fold indices in Ha.
  assert (Hk : length indices = k) by apply get_next_length.
  rewrite Hk in Ha. rewrite Ha in Hrun.
  assert (Hcovered : forall ny, len y = Ok ny ->
    Forall (fun i => i < ny) indices ->
    exists a yb,
      train_next_batch (Some k) s = (Ok ([a; B], yb), s') /\
      getitem A indices = Ok a /\ getitem y indices = Ok yb /\
      len a = Ok k /\ shape yb = k :: tail (shape y)).
  { intros ny Hleny Hidx'.
    pose proof (getitem_ok y ny _ Hleny Hidx') as Hyb. rewrite Hk in Hyb.
    rewrite Hyb in Hrun. eexists _, _. by split_and!. }
  split_and!.
  - exact Hcovered.
  - intros n2 Hshape.
    destruct (Hcovered n1) as (a & yb & H1 & H2 & H3 & H4 & H5);
      [unfold len; by rewrite Hshape|exact Hidx|].
    exists a, yb. split_and!; [done..|]. by rewrite H5, Hshape.
  - intros ny i Hleny Hin Hle.
    by rewrite Hrun, (getitem_raises y ny i _ Hleny Hin Hle).
  - intros Hshape. by rewrite Hrun, (getitem_unsized y _ Hshape).
Qed.

(** C6, amended: the message of the [ValueError] names the split that failed
    the check, the training split taking precedence; it is one of two fixed
    sentences, whatever the counts are. *)
Theorem cartesian_init_message X y X' y' s (n1 n2 n1' n2' : nat) :
  rows X 0 = Ok n1 -> rows X 1 = Ok n2 ->
  rows X' 0 = Ok n1' -> rows X' 1 = Ok n2' ->
  let r := __init__ X y X' y' s in
  (n1 * n2 <> size y -> r.1 = Raise (ValueError training_message)) /\
  (n1 * n2 = size y -> n1' * n2' <> size y' ->
     r.1 = Raise (ValueError testing_message)) /\
  contains "training" training_message = true /\
  contains "testing" training_message = false /\
  contains "testing" testing_message = true /\
  contains "training" testing_message = false.
Proof.
  intros H1 H2 H1' H2' r. subst r.
  rewrite (cartesian_init_cases X y X' y' s _ _ _ _ H1 H2 H1' H2').
  split_and!; try reflexivity.
  - intros Hne. apply Nat.eqb_neq in Hne. by rewrite Hne.
  - intros He Hne. apply Nat.eqb_eq in He. apply Nat.eqb_neq in Hne.
    by rewrite He, Hne.
Qed.

(** C10: [__init__] compares only the number of entries of the outputs with
    the product of the branch lengths.  Outputs of any shape with that many
    entries are accepted and stored as they are, and a batch then indexes them
    along their first axis, whatever that axis is: the batch has the trailing
    axes of the stored outputs. *)
Theorem cartesian_init_checks_size_only X y X' y' s (A B : ndarray elt)
    (n1 n2 n1' n2' : nat) :
  X !! 0 = Some A -> X !! 1 = Some B -> len A = Ok n1 -> len B = Ok n2 ->
  rows X' 0 = Ok n1' -> rows X' 1 = Ok n2' ->
  size y = n1 * n2 -> size y' = n1' * n2' ->
  exists ds,
    __init__ X y X' y' s = (Ok tt, ds) /\
    train_y ds = Some y /\ test_y ds = Some y' /\
    forall k a yb,
      let indices := (get_next k (BatchSampler n1 true)).1 in
      getitem A indices = Ok a -> getitem y indices = Ok yb ->
      (train_next_batch (Some k) ds).1 = Ok ([a; B], yb) /\
      shape yb = length indices :: tail (shape y).
Proof.
  intros HA HB HlenA HlenB H1' H2' Hsize Hsize'.
  assert (H1 : rows X 0 = Ok n1).
  { unfold rows, tuple_getitem. by rewrite HA. }
  assert (H2 : rows X 1 = Ok n2).
  { unfold rows, tuple_getitem. by rewrite HB. }
  eexists. split_and!.
  - rewrite (cartesian_init_cases X y X' y' s _ _ _ _ H1 H2 H1' H2').
    rewrite Hsize, Hsize', !Nat.eqb_refl. reflexivity.
  - reflexivity.
  - reflexivity.
  - intros k a yb indices Ha Hyb. split.
    + erewrite cartesian_batch_eval; [|reflexivity|exact HA|exact HB|reflexivity..].
      cbn zeta. fold indices. by rewrite Ha, Hyb.
    + destruct (getitem_inv _ _ _ Hyb) as (n & _ & _ & ->). reflexivity.
Qed.

End CartesianFacts.

(** With the sampler of the spec, a batch request on a dataset whose sampler
    covers the rows of the first branch always succeeds, and leaves a sampler
    of which the same holds: so does every later request. *)
Section CartesianRuns.
Import TripleCartesianProd.
Context {elt : Type}.
Variable permutation : nat -> nat -> list nat.
Hypothesis permutation_perm : forall e n, permutation e n ≡ₚ seq 0 n.
Let sampling : BatchSamplerAPI := SamplerSpec.api permutation.
Local Existing Instance sampling.

Lemma cartesian_batch_succeeds (s : instance elt) X y (A B : ndarray elt)
    (smp : SamplerSpec.state) (k n1 ny : nat) :
  train_x s = Some X -> X !! 0 = Some A -> X !! 1 = Some B ->
  train_y s = Some y -> train_sampler s = Some smp ->
  SamplerSpec.valid smp -> SamplerSpec.num_samples smp = n1 -> 0 < n1 ->
  len A = Ok n1 -> len y = Ok ny -> n1 <= ny ->
  exists a yb smp',
    train_next_batch (Some k) s = (Ok ([a; B], yb), set_train_sampler smp' s) /\
    len a = Ok k /\
    SamplerSpec.valid smp' /\ SamplerSpec.num_samples smp' = n1.
Proof.
  intros HX HA HB Hy Hs Hv Hn Hpos HlenA Hleny Hle. subst n1.
  destruct (get_next_valid permutation permutation_perm k smp Hv Hpos)
    as (Hv' & Hn' & Hidx).
  assert (Hidx' : Forall (fun i => i < ny) (SamplerSpec.get_next permutation k smp).1).
  { eapply Forall_impl; [exact Hidx|]. intros i Hi. simpl in Hi. lia. }
  pose proof (getitem_ok A _ _ HlenA Hidx) as Ha.
  pose proof (getitem_ok y _ _ Hleny Hidx') as Hyb.
  rewrite spec_get_next_length in Ha, Hyb.
  eexists _, _, _. split.
  - rewrite (cartesian_batch_eval s X y A B smp k) by done.
    subst sampling. cbn. by rewrite Ha, Hyb.
  - split_and!; [reflexivity|exact Hv'|exact Hn'].
Qed.

(** The sampler [__init__] installs is such a sampler. *)
Lemma cartesian_init_sampler X y X' y' (s s' : instance elt) (n1 : nat) :
  rows X 0 = Ok n1 ->
  __init__ X y X' y' s = (Ok tt, s') ->
  exists smp, train_sampler s' = Some smp /\
    SamplerSpec.valid smp /\ SamplerSpec.num_samples smp = n1.
Proof.
  intros H1. unfold __init__. py_unfold. rewrite H1.
  repeat case_match; intros; simplify_eq. cbn.
  eexists. split_and!; [reflexivity| |reflexivity].
  by apply construct_valid.
Qed.

End CartesianRuns.

(** ** [Triple] *)

Section TripleFacts.
Import Triple.
Context {elt : Type} {sampling : BatchSamplerAPI} {scaling : ScalerBackend elt}.
Implicit Types (X : list (ndarray elt)) (y : ndarray elt) (s : instance elt).

(** A branch [A] gives the statistics [st]; [st] transforms [A] into [At];
    the scaler that holds [st]. *)
Local Abbreviation fits :=
  (fun (A : ndarray elt) (st : statistics) => fit_statistics true true A = Ok st).
Local Abbreviation applies :=
  (fun (A : ndarray elt) (st : statistics) (At : ndarray elt) =>
     apply_statistics st A = Ok At).
Local Abbreviation fitted_scaler :=
  (fun st : statistics => Sklearn.mk_scaler true true (Some st)).

Lemma traverse_Forall2 {A B} (f : A -> outcome B) (xs : list A) (bs : list B) :
  traverse f xs = Ok bs <-> Forall2 (fun a b => f a = Ok b) xs bs.
Proof.
  revert bs. induction xs as [|a xs IH]; intros bs; cbn.
  - split; [intros [= <-]; constructor|]. by intros ->%Forall2_nil_inv_l.
  - split.
    + destruct (f a) as [b|] eqn:Ha; [|discriminate].
      destruct (traverse f xs) as [bs'|]; [|discriminate].
      intros [= <-]. constructor; [done|]. by apply IH.
    + intros (b & bs' & Ha & Hxs & ->)%Forall2_cons_inv_l.
      apply IH in Hxs. by rewrite Ha, Hxs.
Qed.

(** [standardize_one] succeeds exactly when the scaler accepts [X1] for
    fitting and then [X1] and [X2] for transforming; the scaler it returns
    holds the statistics of [X1]. *)
Lemma standardize_one_ok (X1 X2 : ndarray elt) sc (a b : ndarray elt) :
  standardize_one X1 X2 = Ok (sc, a, b) <->
  exists st, fits X1 st /\ applies X1 st a /\ applies X2 st b /\
    sc = fitted_scaler st.
Proof.
  unfold standardize_one, Sklearn.fit_transform, Sklearn.transform, Sklearn.new.
  py_unfold. cbn. split.
  - destruct (fit_statistics true true X1) as [st|e] eqn:Hf; [|discriminate].
    cbn. destruct (apply_statistics st X1) as [a0|] eqn:Ha; [|discriminate].
    cbn. destruct (apply_statistics st X2) as [b0|] eqn:Hb; [|discriminate].
    intros [= <- <- <-]. by exists st.
  - intros (st & Hf & Ha & Hb & ->). rewrite Hf. cbn. rewrite Ha. cbn.
    by rewrite Hb.
Qed.

(** The branches [_standardize] goes through are those both tuples have. *)
Lemma standardize_all_inv (X X' : list (ndarray elt)) triples :
  traverse (fun p => standardize_one p.1 p.2) (zip X X') = Ok triples ->
  exists sts,
    Forall2 fits (take (length X') X) sts /\
    Forall3 applies (take (length X') X) sts (map (fun t => t.1.2) triples) /\
    Forall3 applies (take (length X) X') sts (map (fun t => t.2) triples) /\
    map (fun t => t.1.1) triples = map fitted_scaler sts.
Proof.
  intros H%traverse_Forall2. revert X' triples H.
  induction X as [|A X IH]; intros [|A' X'] triples H; cbn in *;
    try (apply Forall2_nil_inv_l in H as ->; exists []; cbn;
         split_and!; by constructor).
  apply Forall2_cons_inv_l in H as ([[sc a] b] & ts & Hone & Hrest & ->).
  apply standardize_one_ok in Hone as (st & Hf & Ha & Hb & ->).
  destruct (IH _ _ Hrest) as (sts & H1 & H2 & H3 & H4).
  exists (st :: sts). cbn. split_and!; [by constructor..|by f_equal].
Qed.

Lemma standardize_all_ok (X X' : list (ndarray elt)) sts Xs Xs' :
  Forall2 fits (take (length X') X) sts ->
  Forall3 applies (take (length X') X) sts Xs ->
  Forall3 applies (take (length X) X') sts Xs' ->
  exists triples,
    traverse (fun p => standardize_one p.1 p.2) (zip X X') = Ok triples /\
    map (fun t => t.1.1) triples = map fitted_scaler sts /\
    map (fun t => t.1.2) triples = Xs /\
    map (fun t => t.2) triples = Xs'.
Proof.
  revert X' sts Xs Xs'.
  induction X as [|A X IH]; intros [|A' X'] sts Xs Xs' H1 H2 H3; cbn in *;
    try (inversion H1; subst; inversion H2; subst; inversion H3; subst;
         by exists []).
  inversion H1 as [|? st ? sts' Hf H1']; subst.
  inversion H2 as [|? ? a ? ? Xs0 Ha H2']; subst.
  inversion H3 as [|? ? b ? ? Xs0' Hb H3']; subst.
  destruct (IH _ _ _ _ H1' H2' H3') as (ts & Ht & E1 & E2 & E3).
  exists ((fitted_scaler st, a, b) :: ts). split_and!; cbn.
  - rewrite (proj2 (standardize_one_ok A A' (fitted_scaler st) a b)) by eauto.
    by rewrite Ht.
  - by rewrite E1.
  - by rewrite E2.
  - by rewrite E3.
Qed.

(** [__init__] with [standardize=True], step by step. *)
Lemma triple_init_standardize_eval X y X' y' s :
  __init__ X y X' y' true s =
    let raw :=
      mk_instance (Some X) (Some y) (Some X') (Some y') (Some None)
        (train_sampler s) in
    match traverse (fun p => standardize_one p.1 p.2) (zip X X') with
    | Raise e => (Raise e, raw)
    | Ok triples =>
        if bool_decide (triples = [])
        then (Raise (ValueError "not enough values to unpack (expected 3, got 0)"),
              raw)
        else
          let standardized smp :=
            mk_instance
              (Some (map (fun t => t.1.2) triples)) (Some y)
              (Some (map (fun t => t.2) triples)) (Some y')
              (Some (Some (map (fun t => t.1.1) triples))) smp in
          match len y with
          | Ok n => (Ok tt, standardized (Some (BatchSampler n true)))
          | Raise e => (Raise e, standardized (train_sampler s))
          end
    end.
Proof.
  unfold __init__, _standardize, when. py_unfold. cbn.
  destruct (traverse _ (zip X X')) as [[|t ts]|e]; cbn; [done| |done].
  by destruct (len y).
Qed.

(** When the scaler accepts the branches both tuples have, [__init__] with
    [standardize=True] succeeds and leaves the transformed arrays and the
    fitted scalers. *)
Lemma triple_init_standardize_ok X y X' y' s (n : nat) sts Xs Xs' :
  len y = Ok n -> 0 < length sts ->
  Forall2 fits (take (length X') X) sts ->
  Forall3 applies (take (length X') X) sts Xs ->
  Forall3 applies (take (length X) X') sts Xs' ->
  __init__ X y X' y' true s =
    (Ok tt,
     mk_instance (Some Xs) (Some y) (Some Xs') (Some y')
       (Some (Some (map fitted_scaler sts))) (Some (BatchSampler n true))).
Proof.
  intros Hy Hpos H1 H2 H3. rewrite triple_init_standardize_eval. cbn zeta.
  destruct (standardize_all_ok X X' sts Xs Xs' H1 H2 H3)
    as (triples & -> & E1 & E2 & E3).
  rewrite bool_decide_false.
  - by rewrite Hy, E1, E2, E3.
  - intros ->. destruct sts; [cbn in Hpos; lia|discriminate].
Qed.

(** What a successful [__init__] with [standardize=True] has done. *)
Lemma triple_init_standardize_inv X y X' y' s s' :
  __init__ X y X' y' true s = (Ok tt, s') ->
  exists (n : nat) sts Xs Xs',
    len y = Ok n /\ 0 < length sts /\
    Forall2 fits (take (length X') X) sts /\
    Forall3 applies (take (length X') X) sts Xs /\
    Forall3 applies (take (length X) X') sts Xs' /\
    s' = mk_instance (Some Xs) (Some y) (Some Xs') (Some y')
           (Some (Some (map fitted_scaler sts))) (Some (BatchSampler n true)).
Proof.
  rewrite triple_init_standardize_eval. cbn zeta.
  destruct (traverse _ (zip X X')) as [triples|e] eqn:Ht; [|discriminate].
  case_bool_decide as Hne; [discriminate|].
  destruct (len y) as [n|e]; [|discriminate]. intros [= <-].
  destruct (standardize_all_inv X X' triples Ht) as (sts & H1 & H2 & H3 & E).
  exists n, sts, (map (fun t => t.1.2) triples), (map (fun t => t.2) triples).
  split_and!; [done| |done..|by rewrite E].
  destruct sts; [|cbn; lia]. by destruct triples.
Qed.

(** C3: with [standardize=True] and one test array per training array,
    [__init__] fits one scaler per branch, each on the training array of its
    branch; the training arrays are replaced by their transforms, the test
    arrays are transformed with the statistics of the training array of the
    same branch, and the fitted scalers are kept in [scaler_x].  It does so
    whenever the scaler accepts every array it is given, and a construction
    that succeeded has done so. *)
Theorem triple_init_standardize X y X' y' s (n : nat) :
  length X = length X' -> 0 < length X -> len y = Ok n ->
  (forall sts Xs Xs',
     Forall2 (fun A st => fit_statistics true true A = Ok st) X sts ->
     Forall3 (fun A st At => apply_statistics st A = Ok At) X sts Xs ->
     Forall3 (fun A' st At' => apply_statistics st A' = Ok At') X' sts Xs' ->
     __init__ X y X' y' true s =
       (Ok tt,
        mk_instance (Some Xs) (Some y) (Some Xs') (Some y')
          (Some (Some (map (fun st => Sklearn.mk_scaler true true (Some st)) sts)))
          (Some (BatchSampler n true)))) /\
  (forall s',
     __init__ X y X' y' true s = (Ok tt, s') ->
     exists sts Xs Xs',
       Forall2 (fun A st => fit_statistics true true A = Ok st) X sts /\
       Forall3 (fun A st At => apply_statistics st A = Ok At) X sts Xs /\
       Forall3 (fun A' st At' => apply_statistics st A' = Ok At') X' sts Xs' /\
       s' = mk_instance (Some Xs) (Some y) (Some Xs') (Some y')
              (Some (Some (map (fun st => Sklearn.mk_scaler true true (Some st)) sts)))
              (Some (BatchSampler n true))).
Proof.
  intros Hlen Hpos Hy.
  assert (HX : take (length X') X = X) by (rewrite <- Hlen; apply firstn_all).
  assert (HX' : take (length X) X' = X') by (rewrite Hlen; apply firstn_all).
  split.
  - intros sts Xs Xs' H1 H2 H3.
    apply triple_init_standardize_ok; rewrite ?HX, ?HX'; try done.
    apply Forall2_length in H1. lia.
  - intros s' Hinit.
    destruct (triple_init_standardize_inv _ _ _ _ _ _ Hinit)
      as (n' & sts & Xs & Xs' & Hy' & _ & H1 & H2 & H3 & ->).
    rewrite HX in H1, H2. rewrite HX' in H3.
    assert (n' = n) as -> by congruence.
    by exists sts, Xs, Xs'.
Qed.

(** Without [standardize], [__init__] stores the four arguments as they are
    and leaves [scaler_x] at [None]. *)
Lemma triple_init_plain X y X' y' s :
  __init__ X y X' y' false s =
    match len y with
    | Ok n => (Ok tt, mk_instance (Some X) (Some y) (Some X') (Some y')
                        (Some None) (Some (BatchSampler n true)))
    | Raise e => (Raise e, mk_instance (Some X) (Some y) (Some X') (Some y')
                             (Some None) (train_sampler s))
    end.
Proof. unfold __init__. py_eval. by destruct (len y). Qed.

(** [train_next_batch(k)] step by step. *)
Lemma triple_batch_eval s X y (A B : ndarray elt) (smp : sampler) (k : nat) :
  train_x s = Some X -> X !! 0 = Some A -> X !! 1 = Some B ->
  train_y s = Some y -> train_sampler s = Some smp ->
  train_next_batch (Some k) s =
    let s' := set_train_sampler (get_next k smp).2 s in
    match getitem A (get_next k smp).1 with
    | Raise e => (Raise e, s')
    | Ok a =>
        match getitem B (get_next k smp).1 with
        | Raise e => (Raise e, s')
        | Ok b =>
            match getitem y (get_next k smp).1 with
            | Raise e => (Raise e, s')
            | Ok yb => (Ok ([a; b], yb), s')
            end
        end
    end.
Proof.
  intros HX HA HB Hy Hs. unfold train_next_batch. py_unfold.
  rewrite Hs. destruct (get_next k smp) as [idx smp']. cbn.
  rewrite HX. unfold tuple_getitem. rewrite HA.
  destruct (getitem A idx) as [a|]; [|done].
  cbn. rewrite HX, HB. destruct (getitem B idx) as [b|]; [|done].
  cbn. rewrite Hy. by destruct (getitem y idx).
Qed.

(** C4: a batch of [k] makes one request of [k] indices to the sampler of the
    instance and indexes the first branch, the second branch and the outputs
    with that one sequence: row [j] of each of the three results is the row
    of the stored array at the [j]-th sampled index. *)
Theorem triple_train_next_batch {contract : BatchSamplerContract}
    s X y (A B : ndarray elt) (smp : sampler) (k n : nat) :
  train_x s = Some X -> X !! 0 = Some A -> X !! 1 = Some B ->
  train_y s = Some y -> train_sampler s = Some smp ->
  len A = Ok n -> len B = Ok n -> len y = Ok n ->
  well_formed A -> well_formed B -> well_formed y ->
  Forall (fun i => i < n) (get_next k smp).1 ->
  let indices := (get_next k smp).1 in
  exists a b yb,
    train_next_batch (Some k) s =
      (Ok ([a; b], yb), set_train_sampler (get_next k smp).2 s) /\
    length indices = k /\
    getitem A indices = Ok a /\ getitem B indices = Ok b /\
    getitem y indices = Ok yb /\
    len a = Ok k /\ len b = Ok k /\ len yb = Ok k /\
    forall j i, indices !! j = Some i ->
      row a j = row A i /\ row b j = row B i /\ row yb j = row y i.
Proof.
  intros HX HA HB Hy Hs HlenA HlenB Hleny HwA HwB Hwy Hidx indices.
  pose proof (getitem_ok A n _ HlenA Hidx) as Ha.
  pose proof (getitem_ok B n _ HlenB Hidx) as Hb.
  pose proof (getitem_ok y n _ Hleny Hidx) as Hyb.
  fold indices in Ha, Hb, Hyb.
  assert (Hk : length indices = k) by apply get_next_length.
  eexists _, _, _. split_and!; [|exact Hk|exact Ha|exact Hb|exact Hyb|..].
  - rewrite (triple_batch_eval s X y A B smp k) by done.
    cbn zeta. fold indices. by rewrite Ha, Hb, Hyb.
  - by rewrite <- Hk.
  - by rewrite <- Hk.
  - by rewrite <- Hk.
  - intros j i Hj. split_and!; eapply getitem_row; eauto.
Qed.

(** Later calls change nothing of an instance but its sampler. *)
Lemma later_frame s s' :
  later s s' ->
  train_x s' = train_x s /\ train_y s' = train_y s /\
  test_x s' = test_x s /\ test_y s' = test_y s /\
  scaler_x s' = scaler_x s.
Proof.
  induction 1 as [|s1 bs _ IH|s1 _ IH|s1 x _ IH|s1 ? ? ? ? ? ? ? _ IH];
    [done|..|exact IH].
  - destruct IH as (I1 & I2 & I3 & I4 & I5).
    destruct bs as [k|]; unfold train_next_batch; py_unfold;
      repeat case_match; simplify_eq; cbn; split_and!; congruence.
  - destruct IH as (I1 & I2 & I3 & I4 & I5).
    unfold test. py_unfold.
    repeat case_match; simplify_eq; cbn; split_and!; congruence.
  - destruct IH as (I1 & I2 & I3 & I4 & I5).
    unfold transform_inputs. py_unfold.
    repeat case_match; simplify_eq; cbn; split_and!; congruence.
Qed.

(** C9: in a [Triple] constructed without [standardize], and after any
    further calls on it, [transform_inputs(x)] returns [x] itself and changes
    nothing. *)
Theorem triple_transform_inputs_identity X y X' y' s0 s s' (x : list (ndarray elt)) :
  __init__ X y X' y' false s0 = (Ok tt, s) ->
  later s s' ->
  transform_inputs x s' = (Ok x, s').
Proof.
  intros Hinit Hlater. rewrite triple_init_plain in Hinit.
  destruct (len y) as [n|]; [|discriminate]. injection Hinit as <-.
  destruct (later_frame _ _ Hlater) as (_ & _ & _ & _ & Hsc). cbn in Hsc.
  unfold transform_inputs. py_unfold. by rewrite Hsc.
Qed.

End TripleFacts.

(** With the sampler of the spec, a batch request on a [Triple] whose three
    training arrays have the [n] rows its sampler covers always succeeds, and
    leaves a sampler of which the same holds. *)
Section TripleRuns.
Import Triple.
Context {elt : Type} {scaling : ScalerBackend elt}.
Variable permutation : nat -> nat -> list nat.
Hypothesis permutation_perm : forall e n, permutation e n ≡ₚ seq 0 n.
Let sampling : BatchSamplerAPI := SamplerSpec.api permutation.
Local Existing Instance sampling.

Lemma triple_batch_succeeds (s : instance elt) X y (A B : ndarray elt)
    (smp : SamplerSpec.state) (k n : nat) :
  train_x s = Some X -> X !! 0 = Some A -> X !! 1 = Some B ->
  train_y s = Some y -> train_sampler s = Some smp ->
  SamplerSpec.valid smp -> SamplerSpec.num_samples smp = n -> 0 < n ->
  len A = Ok n -> len B = Ok n -> len y = Ok n ->
  exists a b yb smp',
    train_next_batch (Some k) s =
      (Ok ([a; b], yb), set_train_sampler smp' s) /\
    len a = Ok k /\ len b = Ok k /\ len yb = Ok k /\
    SamplerSpec.valid smp' /\ SamplerSpec.num_samples smp' = n.
Proof.
  intros HX HA HB Hy Hs Hv Hn Hpos HlenA HlenB Hleny. subst n.
  destruct (get_next_valid permutation permutation_perm k smp Hv Hpos)
    as (Hv' & Hn' & Hidx).
  pose proof (getitem_ok A _ _ HlenA Hidx) as Ha.
  pose proof (getitem_ok B _ _ HlenB Hidx) as Hb.
  pose proof (getitem_ok y _ _ Hleny Hidx) as Hyb.
  rewrite spec_get_next_length in Ha, Hb, Hyb.
  eexists _, _, _, _. split.
  - rewrite (triple_batch_eval s X y A B smp k) by done.
    subst sampling. cbn. by rewrite Ha, Hb, Hyb.
  - split_and!; [reflexivity..|exact Hv'|exact Hn'].
Qed.

End TripleRuns.

(** ** What the two classes share *)

Section SharedFacts.
Context {elt : Type} {sampling : BatchSamplerAPI} {scaling : ScalerBackend elt}.

Lemma triple_full_batch (s : Triple.instance elt) X y :
  Triple.train_x s = Some X -> Triple.train_y s = Some y ->
  Triple.train_next_batch None s = (Ok (X, y), s).
Proof.
  intros HX Hy. unfold Triple.train_next_batch. py_unfold. by rewrite HX, Hy.
Qed.

Lemma cartesian_full_batch (s : TripleCartesianProd.instance elt) X y :
  TripleCartesianProd.train_x s = Some X ->
  TripleCartesianProd.train_y s = Some y ->
  TripleCartesianProd.train_next_batch None s = (Ok (X, y), s).
Proof.
  intros HX Hy. unfold TripleCartesianProd.train_next_batch. py_unfold.
  by rewrite HX, Hy.
Qed.

Lemma triple_test_eval (s : Triple.instance elt) X y :
  Triple.test_x s = Some X -> Triple.test_y s = Some y ->
  Triple.test s = (Ok (X, y), s).
Proof. intros HX Hy. unfold Triple.test. py_unfold. by rewrite HX, Hy. Qed.

Lemma cartesian_test_eval (s : TripleCartesianProd.instance elt) X y :
  TripleCartesianProd.test_x s = Some X ->
  TripleCartesianProd.test_y s = Some y ->
  TripleCartesianProd.test s = (Ok (X, y), s).
Proof.
  intros HX Hy. unfold TripleCartesianProd.test. py_unfold. by rewrite HX, Hy.
Qed.

(** C5: with [batch_size] unset, [train_next_batch] of either class returns
    the stored [train_x] and [train_y] as they are and leaves the instance,
    its sampler included, as it was. *)
Theorem train_next_batch_unset :
  (forall (s : Triple.instance elt) X y,
     Triple.train_x s = Some X -> Triple.train_y s = Some y ->
     Triple.train_next_batch None s = (Ok (X, y), s) /\
     Triple.train_sampler (Triple.train_next_batch None s).2 =
       Triple.train_sampler s) /\
  (forall (s : TripleCartesianProd.instance elt) X y,
     TripleCartesianProd.train_x s = Some X ->
     TripleCartesianProd.train_y s = Some y ->
     TripleCartesianProd.train_next_batch None s = (Ok (X, y), s) /\
     TripleCartesianProd.train_sampler
       (TripleCartesianProd.train_next_batch None s).2 =
       TripleCartesianProd.train_sampler s).
Proof.
  split; intros s X y HX Hy.
  - by rewrite (triple_full_batch s X y HX Hy).
  - by rewrite (cartesian_full_batch s X y HX Hy).
Qed.

(** C8: [losses] of either class returns the one-element list
    [[loss(targets, outputs)]] and leaves the instance as it was; the result
    is the same for any two models, of whatever types. *)
Theorem losses_single {tensor value : Type} (targets outputs : tensor)
    (loss : tensor -> tensor -> value) :
  (forall (model : Type) (m : model) (s : Triple.instance elt),
     Triple.losses targets outputs loss m s = (Ok [loss targets outputs], s)) /\
  (forall (model : Type) (m : model) (s : TripleCartesianProd.instance elt),
     TripleCartesianProd.losses targets outputs loss m s =
       (Ok [loss targets outputs], s)) /\
  (forall (model model' : Type) (m : model) (m' : model'),
     Triple.losses (elt := elt) targets outputs loss m =
       Triple.losses targets outputs loss m' /\
     TripleCartesianProd.losses (elt := elt) targets outputs loss m =
       TripleCartesianProd.losses targets outputs loss m').
Proof. split_and!; intros; try split; reflexivity. Qed.

(** C7, amended: with whatever the base classes define, both classes have
    [losses], [train_next_batch] and [test] from their own bodies; [losses]
    returns the same one-element list in both and [test] returns the stored
    held-out pair in both.  [transform_inputs] is defined by the body of
    [Triple]; the body of [TripleCartesianProd] has none, so that class has
    the method only if its base class has. *)
Theorem dataset_interface
    (base : Interface.class_body elt (Triple.instance elt))
    (base' : Interface.class_body elt (TripleCartesianProd.instance elt)) :
  let T := Interface.inherit Triple.methods base in
  let C := Interface.inherit TripleCartesianProd.methods base' in
  (Interface.def_losses T = Interface.def_losses Triple.methods /\
   Interface.def_train_next_batch T = Some Triple.train_next_batch /\
   Interface.def_test T = Some Triple.test /\
   Interface.def_transform_inputs T = Some Triple.transform_inputs) /\
  (Interface.def_losses C = Interface.def_losses TripleCartesianProd.methods /\
   Interface.def_train_next_batch C = Some TripleCartesianProd.train_next_batch /\
   Interface.def_test C = Some TripleCartesianProd.test /\
   Interface.def_transform_inputs C = Interface.def_transform_inputs base') /\
  (forall (tensor value model : Type) (targets outputs : tensor)
     (loss : tensor -> tensor -> value) (m : model)
     (s : Triple.instance elt) (s' : TripleCartesianProd.instance elt),
     (Triple.losses targets outputs loss m s).1 = Ok [loss targets outputs] /\
     (TripleCartesianProd.losses targets outputs loss m s').1 =
       Ok [loss targets outputs]) /\
  (forall (s : Triple.instance elt) (s' : TripleCartesianProd.instance elt) X y,
     Triple.test_x s = Some X -> Triple.test_y s = Some y ->
     TripleCartesianProd.test_x s' = Some X ->
     TripleCartesianProd.test_y s' = Some y ->
     Triple.test s = (Ok (X, y), s) /\
     TripleCartesianProd.test s' = (Ok (X, y), s')).
Proof.
  split_and!; try reflexivity.
  - intros. split; reflexivity.
  - intros s s' X y HX Hy HX' Hy'.
    by rewrite (triple_test_eval s X y), (cartesian_test_eval s' X y).
Qed.

End SharedFacts.

(** ** The claims on concrete data *)

Section Checks.
Import Example.

Local Existing Instance spec_sampler.
Local Existing Instance centring.

(** The sampler of the examples honours the contract. *)
Lemma descending_contract : @BatchSamplerContract spec_sampler.
Proof. apply spec_sampler_contract. Qed.

(** Three rows against four rows: eleven outputs are refused and the
    instance stays blank, twelve are accepted. *)
Lemma cartesian_init_shape_mismatch_witness :
  (exists msg,
     (TripleCartesianProd.__init__ [A3; B4] y_flat11 [A3; B4] y_3x4
        TripleCartesianProd.blank).1 = Raise (ValueError msg)) /\
  (TripleCartesianProd.__init__ [A3; B4] y_flat11 [A3; B4] y_3x4
     TripleCartesianProd.blank).2 = TripleCartesianProd.blank /\
  TripleCartesianProd.__init__ [A3; B4] y_3x4 [A3; B4] y_3x4
    TripleCartesianProd.blank = (Ok tt, cartesian y_3x4).
Proof.
  split_and!.
  - apply (cartesian_init_shape_mismatch [A3; B4] y_flat11 [A3; B4] y_3x4
             TripleCartesianProd.blank 3 4 3 4); try reflexivity.
    left. vm_compute. discriminate.
  - destruct (cartesian_init_shape_mismatch [A3; B4] y_flat11 [A3; B4] y_3x4
                TripleCartesianProd.blank 3 4 3 4 eq_refl eq_refl eq_refl eq_refl)
      as (_ & Hfail & _).
    apply (Hfail (ValueError TripleCartesianProd.training_message)).
    reflexivity.
  - rewrite (proj2 (proj2 (cartesian_init_shape_mismatch [A3; B4] y_3x4
             [A3; B4] y_3x4 TripleCartesianProd.blank 3 4 3 4
             eq_refl eq_refl eq_refl eq_refl)) eq_refl eq_refl).
    reflexivity.
Defined.

(** C2 as stated fails on outputs stored flat: the dataset is accepted, and a
    batch of two carries two scalars, not two rows of four.  It also fails
    on twelve outputs stored as a [(3, 4)] table for four rows against
    three: the dataset is accepted, and a batch of one raises. *)
Lemma cartesian_batch_of_flat_outputs :
  TripleCartesianProd.__init__ [A3; B4] y_flat12 [A3; B4] y_flat12
    TripleCartesianProd.blank = (Ok tt, cartesian y_flat12) /\
  (TripleCartesianProd.train_next_batch (Some 2) (cartesian y_flat12)).1 =
    Ok ([mk_ndarray [2; 1] [30; 20]%Z; B4], mk_ndarray [2] [2; 1]%Z) /\
  bool_decide ([2] = [2; 4]) = false /\
  (TripleCartesianProd.__init__ [A4; B3] y_3x4 [A4; B3] y_3x4
     TripleCartesianProd.blank).1 = Ok tt /\
  (TripleCartesianProd.train_next_batch (Some 1)
     (TripleCartesianProd.__init__ [A4; B3] y_3x4 [A4; B3] y_3x4
        TripleCartesianProd.blank).2).1 =
    Raise (IndexError "index is out of bounds for axis 0").
Proof. split_and!; reflexivity. Qed.

(** A batch of two from the [(3, 4)] table. *)
Lemma cartesian_train_next_batch_witness :
  exists a yb,
    (TripleCartesianProd.train_next_batch (Some 2) (cartesian y_3x4)).1 =
      Ok ([a; B4], yb) /\
    len a = Ok 2 /\ shape yb = [2; 4].
Proof.
  destruct (cartesian_train_next_batch (contract := descending_contract)
    (cartesian y_3x4) [A3; B4] y_3x4 A3 B4
    (SamplerSpec.construct descending 3 true) 2 3)
    as (_ & Hdocumented & _);
    try reflexivity; [vm_compute; repeat constructor|].
  destruct (Hdocumented 4 eq_refl) as (a & yb & Hrun & _ & _ & Hlen & Hshape).
  exists a, yb. split_and!; [by rewrite Hrun|exact Hlen|exact Hshape].
Defined.

(** C6 as stated fails: the message for twelve expected and eleven actual
    entries spells out neither number, and is the same for ten entries. *)
Lemma cartesian_message_without_counts :
  let msg := TripleCartesianProd.training_message in
  (TripleCartesianProd.__init__ [A3; B4] y_flat11 [A3; B4] y_3x4
     TripleCartesianProd.blank).1 = Raise (ValueError msg) /\
  mentions 12 msg = false /\ mentions 11 msg = false /\
  (TripleCartesianProd.__init__ [A3; B4] y_flat10 [A3; B4] y_3x4
     TripleCartesianProd.blank).1 = Raise (ValueError msg).
Proof. split_and!; reflexivity. Qed.

(** The training split passes and the testing split has ten outputs for
    three rows against four: the message names the testing split. *)
Lemma cartesian_init_message_witness :
  (TripleCartesianProd.__init__ [A3; B4] y_3x4 [A3; B4] y_flat10
     TripleCartesianProd.blank).1 =
    Raise (ValueError TripleCartesianProd.testing_message).
Proof.
  apply (cartesian_init_message [A3; B4] y_3x4 [A3; B4] y_flat10
           TripleCartesianProd.blank 3 4 3 4); try reflexivity.
  vm_compute. discriminate.
Defined.

(** Twelve outputs stored as a [(4, 3)] table are accepted; a batch then
    carries rows of three. *)
Lemma cartesian_init_checks_size_only_witness :
  exists ds,
    TripleCartesianProd.__init__ [A3; B4] y_4x3 [A3; B4] y_4x3
      TripleCartesianProd.blank = (Ok tt, ds) /\
    TripleCartesianProd.train_y ds = Some y_4x3 /\
    exists a yb,
      (TripleCartesianProd.train_next_batch (Some 2) ds).1 = Ok ([a; B4], yb) /\
      shape yb = [2; 3].
Proof.
  destruct (cartesian_init_checks_size_only [A3; B4] y_4x3 [A3; B4] y_4x3
    TripleCartesianProd.blank A3 B4 3 4 3 4) as (ds & Hinit & Hy & _ & Hbatch);
    try reflexivity.
  exists ds. split_and!; [exact Hinit|exact Hy|].
  eexists _, _. apply Hbatch; reflexivity.
Defined.

(** Standardizing the example: the scalers hold the means 20 and 2 of the
    training branches, and the test branches are shifted by those. *)
Lemma triple_init_standardize_witness :
  Triple.__init__ [A3; B3] y_3x1 [A2_test; B2_test] y_2x1_test true Triple.blank =
    (Ok tt, triple true) /\
  Triple.scaler_x (triple true) =
    Some (Some [Sklearn.mk_scaler true true (Some (20%Z, 1));
                Sklearn.mk_scaler true true (Some (2%Z, 1))]) /\
  Triple.test_x (triple true) =
    Some [mk_ndarray [2; 1] [80; 180]%Z; mk_ndarray [2; 1] [3; 5]%Z].
Proof.
  unfold triple.
  rewrite (proj1 (triple_init_standardize (sampling := spec_sampler)
                    (scaling := centring) [A3; B3] y_3x1 [A2_test; B2_test]
                    y_2x1_test Triple.blank 3 eq_refl Nat.lt_0_2 eq_refl)
             [(20%Z, 1); (2%Z, 1)]
             [mk_ndarray [3; 1] [-10; 0; 10]%Z; mk_ndarray [3; 1] [-1; 0; 1]%Z]
             [mk_ndarray [2; 1] [80; 180]%Z; mk_ndarray [2; 1] [3; 5]%Z]);
    [split_and!; reflexivity|repeat constructor..].
Defined.

(** A test branch with two columns against a training branch with one: the
    scaler refuses it, and the construction raises what the scaler raises. *)
Example triple_init_standardize_refused :
  (Triple.__init__ [A3; B3] y_3x1 [M22; B2_test] y_2x1_test true Triple.blank).1 =
    Raise (ValueError "X has a different number of features").
Proof. reflexivity. Qed.

(** A batch of two from the example [Triple]. *)
Lemma triple_train_next_batch_witness :
  exists a b yb,
    (Triple.train_next_batch (Some 2) (triple false)).1 = Ok ([a; b], yb) /\
    row a 0 = row A3 2 /\ row b 0 = row B3 2 /\ row yb 0 = row y_3x1 2.
Proof.
  destruct (triple_train_next_batch (contract := descending_contract)
    (triple false) [A3; B3] y_3x1 A3 B3
    (SamplerSpec.construct descending 3 true) 2 3)
    as (a & b & yb & Hrun & _ & _ & _ & _ & _ & _ & _ & Hrows);
    try reflexivity; [vm_compute; repeat constructor|].
  exists a, b, yb. split; [by rewrite Hrun|].
  apply Hrows. reflexivity.
Defined.

(** The example [Triple] without standardization, after one batch. *)
Lemma triple_transform_inputs_identity_witness :
  let s' := (Triple.train_next_batch (Some 2) (triple false)).2 in
  Triple.transform_inputs [B3; A3] s' = (Ok [B3; A3], s').
Proof.
  apply (triple_transform_inputs_identity [A3; B3] y_3x1 [A2_test; B2_test]
           y_2x1_test Triple.blank (triple false)); [reflexivity|].
  apply Triple.later_batch, Triple.later_now.
Defined.

(** Twelve outputs for four rows against three rows, stored as a [(3, 4)]
    table, are accepted as well; the first index the sampler hands out is 3,
    beyond the first axis of the outputs. *)
Example cartesian_transposed_outputs :
  (TripleCartesianProd.__init__ [A4; B3] y_3x4 [A4; B3] y_3x4
     TripleCartesianProd.blank).1 = Ok tt /\
  (TripleCartesianProd.train_next_batch (Some 1)
     (TripleCartesianProd.__init__ [A4; B3] y_3x4 [A4; B3] y_3x4
        TripleCartesianProd.blank).2).1 =
    Raise (IndexError "index is out of bounds for axis 0").
Proof. split; reflexivity. Qed.

(** The sampler of the spec without shuffling, five indices in batches of
    two. *)
Example sampler_wraps_around :
  let next := SamplerSpec.get_next descending 2 in
  let s0 := SamplerSpec.construct descending 5 false in
  let '(b1, s1) := next s0 in
  let '(b2, s2) := next s1 in
  let '(b3, s3) := next s2 in
  let '(b4, _) := next s3 in
  [b1; b2; b3; b4] = [[0; 1]; [2; 3]; [4; 0]; [1; 2]].
Proof. vm_compute. reflexivity. Qed.

(** C7 as stated fails: the body of [TripleCartesianProd] defines no
    [transform_inputs], and over a base class that defines none the class has
    none. *)
Lemma cartesian_has_no_transform_inputs :
  Interface.def_transform_inputs (TripleCartesianProd.methods (elt := Z)) = None /\
  Interface.def_transform_inputs
    (Interface.inherit (TripleCartesianProd.methods (elt := Z))
       Interface.bare_base) = None.
Proof. split; reflexivity. Qed.

End Checks.

(** * Further properties of the code *)

(** ** [Triple]: construction without validation, standardization of
    unequal tuples, [transform_inputs] *)

Section TripleEdges.
Import Triple.
Context {elt : Type} {sampling : BatchSamplerAPI} {scaling : ScalerBackend elt}.
Implicit Types (X x : list (ndarray elt)) (y : ndarray elt) (s : instance elt).

(** X1: without [standardize], [Triple.__init__] validates nothing but that
    [y_train] has a length: it succeeds exactly when [y_train] has at least
    one axis, whatever the branches and the test split are; it then stores
    its arguments as they are, with a shuffling sampler over [len(y_train)]
    indices; for a 0-d [y_train] it raises the [TypeError] of [len]. *)
Theorem triple_init_plain_outcome X y X' y' s :
  ((__init__ X y X' y' false s).1 = Ok tt <-> exists n, len y = Ok n) /\
  (forall n, len y = Ok n ->
     __init__ X y X' y' false s =
       (Ok tt, mk_instance (Some X) (Some y) (Some X') (Some y') (Some None)
                 (Some (BatchSampler n true)))) /\
  (shape y = [] ->
     (__init__ X y X' y' false s).1 =
       Raise (TypeError "len() of unsized object")).
Proof.
  rewrite triple_init_plain. split_and!.
  - destruct (len y) as [n|e]; cbn; split; eauto; try done.
    by intros [n [=]].
  - by intros n ->.
  - unfold len. by intros ->.
Qed.

(** X2: with [standardize=True], an empty tuple of training or of test
    arrays makes [__init__] raise the [ValueError] of unpacking an empty
    [zip]; this happens before the sampler is made, whatever [y_train]
    is. *)
Theorem triple_init_standardize_empty X y X' y' s :
  X = [] \/ X' = [] ->
  __init__ X y X' y' true s =
    (Raise (ValueError "not enough values to unpack (expected 3, got 0)"),
     mk_instance (Some X) (Some y) (Some X') (Some y') (Some None)
       (train_sampler s)).
Proof.
  intros Hempty. rewrite triple_init_standardize_eval.
  assert (zip X X' = []) as ->; [|reflexivity].
  destruct Hempty as [-> | ->]; [done|]. by destruct X.
Qed.

(** X3: with [standardize=True] and tuples of different lengths, only as
    many branches as the shorter tuple has are standardized and kept: when
    the scaler accepts those, [__init__] succeeds whatever the further
    arrays of the longer tuple are, and the stored [train_x], [test_x] and
    [scaler_x] all have the length of the shorter tuple. *)
Theorem triple_init_standardize_truncates X y X' y' s (n : nat) sts Xs Xs' :
  0 < length X -> 0 < length X' -> len y = Ok n ->
  Forall2 (fun A st => fit_statistics true true A = Ok st)
    (take (length X') X) sts ->
  Forall3 (fun A st At => apply_statistics st A = Ok At)
    (take (length X') X) sts Xs ->
  Forall3 (fun A' st At' => apply_statistics st A' = Ok At')
    (take (length X) X') sts Xs' ->
  __init__ X y X' y' true s =
    (Ok tt,
     mk_instance (Some Xs) (Some y) (Some Xs') (Some y')
       (Some (Some (map (fun st => Sklearn.mk_scaler true true (Some st)) sts)))
       (Some (BatchSampler n true))) /\
  length Xs = length X `min` length X' /\
  length Xs' = length X `min` length X' /\
  length sts = length X `min` length X'.
Proof.
  intros HX HX' Hy H1 H2 H3.
  assert (Hsts : length sts = length X `min` length X').
  { apply Forall2_length in H1. rewrite length_take in H1. lia. }
  split_and!; [|..|exact Hsts].
  - apply triple_init_standardize_ok; try done. lia.
  - apply Forall3_length_lr in H2. rewrite length_take in H2. lia.
  - apply Forall3_length_lr in H3. rewrite length_take in H3. lia.
Qed.

(** Fitted scalers transform as their statistics do. *)
Lemma transform_traverse (sts : list statistics) (x : list (ndarray elt)) :
  traverse (fun p => (Sklearn.transform p.2 p.1).1)
    (zip (map (fun st => Sklearn.mk_scaler true true (Some st)) sts) x) =
  traverse (fun p => apply_statistics p.1 p.2) (zip sts x).
Proof.
  revert x. induction sts as [|st sts IH]; intros [|xi x]; cbn; try done.
  by rewrite IH.
Qed.

(** Statistics that transformed a prefix of a tuple transform the tuple,
    as far as they reach, in the same way. *)
Lemma apply_all_prefix (sts : list statistics) (x out : list (ndarray elt))
    (k : nat) :
  Forall3 (fun A st At => apply_statistics st A = Ok At) (take k x) sts out ->
  traverse (fun p => apply_statistics p.1 p.2) (zip sts x) = Ok out.
Proof.
  revert x out k. induction sts as [|st sts IH]; intros x out k H.
  - by inversion H.
  - inversion H as [|A ? At L ? out' Ha Hrest HL]; subst.
    destruct x as [|A0 x]; [by destruct k|].
    destruct k as [|k]; [discriminate|]. cbn in HL. injection HL as -> ->.
    cbn. rewrite Ha. by rewrite (IH x out' k Hrest).
Qed.

(** X4: in a [Triple] constructed with [standardize=True], and after any
    further calls, [transform_inputs(x)] passes the [i]-th array of [x] to
    the scaler with the statistics fitted on the [i]-th training array given
    to the constructor: it returns the transformed arrays when the scaler
    accepts them all and raises what the scaler raises otherwise, never for
    an unfitted scaler; it leaves the instance as it is and drops the arrays
    of [x] beyond the number of scalers. *)
Theorem triple_transform_inputs_standardized X y X' y' s0 s s' x :
  __init__ X y X' y' true s0 = (Ok tt, s) ->
  later s s' ->
  exists sts,
    Forall2 (fun A st => fit_statistics true true A = Ok st)
      (take (length X') X) sts /\
    transform_inputs x s' =
      (traverse (fun p => apply_statistics p.1 p.2) (zip sts x), s').
Proof.
  intros Hinit Hlater.
  destruct (triple_init_standardize_inv _ _ _ _ _ _ Hinit)
    as (n & sts & Xs & Xs' & _ & _ & H1 & _ & _ & ->).
  destruct (later_frame _ _ Hlater) as (_ & _ & _ & _ & Hsc). cbn in Hsc.
  exists sts. split; [exact H1|].
  unfold transform_inputs. py_unfold. rewrite Hsc.
  by rewrite transform_traverse.
Qed.

(** X5: [transform_inputs] agrees with the standardization done at
    construction: applied to the training tuple given to the constructor it
    returns the stored [train_x], and applied to the test tuple it returns
    the stored [test_x]. *)
Theorem triple_transform_inputs_reproduces_stored X y X' y' s0 s s' :
  __init__ X y X' y' true s0 = (Ok tt, s) ->
  later s s' ->
  exists Xs Xs',
    train_x s' = Some Xs /\ test_x s' = Some Xs' /\
    transform_inputs X s' = (Ok Xs, s') /\
    transform_inputs X' s' = (Ok Xs', s').
Proof.
  intros Hinit Hlater.
  destruct (triple_init_standardize_inv _ _ _ _ _ _ Hinit)
    as (n & sts & Xs & Xs' & _ & _ & _ & H2 & H3 & ->).
  destruct (later_frame _ _ Hlater) as (HX1 & _ & HX1' & _ & Hsc).
  cbn in HX1, HX1', Hsc.
  exists Xs, Xs'. split_and!; [done..| |].
  - unfold transform_inputs. py_unfold. rewrite Hsc.
    by rewrite transform_traverse, (apply_all_prefix _ _ _ _ H2).
  - unfold transform_inputs. py_unfold. rewrite Hsc.
    by rewrite transform_traverse, (apply_all_prefix _ _ _ _ H3).
Qed.

(** X6: whatever calls have been made on a [Triple], [test()], the full
    training set [train_next_batch(None)] and [transform_inputs(x)] return
    what they returned before those calls: only the sampler changes. *)
Theorem triple_calls_preserve_results s s' :
  later s s' ->
  (test s').1 = (test s).1 /\
  (train_next_batch None s').1 = (train_next_batch None s).1 /\
  (forall x, (transform_inputs x s').1 = (transform_inputs x s).1).
Proof.
  intros Hlater.
  destruct (later_frame _ _ Hlater) as (HX & Hy & HX' & Hy' & Hsc).
  destruct s, s'. cbn in *. subst.
  unfold test, train_next_batch, transform_inputs. py_unfold. cbn.
  split_and!.
  - by destruct test_x0, test_y0.
  - by destruct train_x0, train_y0.
  - intros x. by destruct scaler_x0 as [[scalers|]|].
Qed.

(** X7: rows that do not line up are accepted by [__init__] and fail only
    when a batch is drawn: the sampler covers [len(y_train)] indices, and a
    batch that draws an index beyond the rows of the first branch raises
    [IndexError] after the sampler has advanced. *)
Theorem triple_misaligned_rows_fail_at_batch X y X' y' s0
    (A : ndarray elt) (m n k i : nat) :
  X !! 0 = Some A -> len A = Ok m -> len y = Ok n ->
  i ∈ (get_next k (BatchSampler n true)).1 -> m <= i ->
  exists s,
    __init__ X y X' y' false s0 = (Ok tt, s) /\
    train_next_batch (Some k) s =
      (Raise (IndexError "index is out of bounds for axis 0"),
       set_train_sampler (get_next k (BatchSampler n true)).2 s).
Proof.
  intros HA HlenA Hy Hin Hle. eexists. split.
  - rewrite triple_init_plain, Hy. reflexivity.
  - unfold train_next_batch. py_unfold. cbn.
    destruct (get_next k (BatchSampler n true)) as [idx smp'] eqn:Hnext.
    cbn in *. unfold tuple_getitem. rewrite HA.
    by rewrite (getitem_raises A m i idx HlenA Hin Hle).
Qed.

End TripleEdges.

(** ** [TripleCartesianProd]: malformed tuples, the order of the checks,
    what calls preserve, failing and empty batches *)

Section CartesianEdges.
Import TripleCartesianProd.
Context {elt : Type} {sampling : BatchSamplerAPI}.
Implicit Types (X : list (ndarray elt)) (y : ndarray elt) (s : instance elt).

(** Later calls change nothing of an instance but its sampler. *)
Lemma cartesian_later_frame s s' :
  later s s' ->
  train_x s' = train_x s /\ train_y s' = train_y s /\
  test_x s' = test_x s /\ test_y s' = test_y s.
Proof.
  induction 1 as [|s1 bs _ IH|s1 _ IH|s1 ? ? ? ? ? ? ? _ IH];
    [done|..|exact IH].
  - destruct IH as (I1 & I2 & I3 & I4).
    destruct bs as [k|]; unfold train_next_batch; py_unfold;
      repeat case_match; simplify_eq; cbn; split_and!; congruence.
  - destruct IH as (I1 & I2 & I3 & I4).
    unfold test. py_unfold.
    repeat case_match; simplify_eq; cbn; split_and!; congruence.
Qed.

(** What a successful [__init__] has checked and stored. *)
Lemma cartesian_init_inv X y X' y' s0 s :
  __init__ X y X' y' s0 = (Ok tt, s) ->
  exists n1 n2 n1' n2',
    rows X 0 = Ok n1 /\ rows X 1 = Ok n2 /\ n1 * n2 = size y /\
    rows X' 0 = Ok n1' /\ rows X' 1 = Ok n2' /\ n1' * n2' = size y' /\
    s = mk_instance (Some X) (Some y) (Some X') (Some y')
          (Some (BatchSampler n1 true)).
Proof.
  unfold __init__. py_unfold.
  destruct (rows X 0) as [n1|]; [|discriminate].
  destruct (rows X 1) as [n2|]; [|discriminate].
  destruct (Nat.eqb_spec (n1 * n2) (size y)) as [Ht|]; [|discriminate]. cbn.
  destruct (rows X' 0) as [n1'|]; [|discriminate].
  destruct (rows X' 1) as [n2'|]; [|discriminate].
  destruct (Nat.eqb_spec (n1' * n2') (size y')) as [Ht'|]; [|discriminate].
  cbn. intros [= <-]. by exists n1, n2, n1', n2'.
Qed.

(** X8: a training tuple with fewer than two arrays makes [__init__] raise
    the [IndexError] of the tuple index, before anything is assigned. *)
Theorem cartesian_init_short_tuple X y X' y' s :
  length X < 2 ->
  (forall A, X !! 0 = Some A -> exists n, len A = Ok n) ->
  __init__ X y X' y' s = (Raise (IndexError "tuple index out of range"), s).
Proof.
  intros Hshort Hsized. unfold __init__. py_unfold.
  destruct X as [|A [|B X]]; [done| |cbn in Hshort; lia].
  destruct (Hsized A eq_refl) as [n Hn].
  unfold rows, tuple_getitem. cbn. by rewrite Hn.
Qed.

(** X9: the training split is checked first: when it fails the size check,
    [__init__] raises the training message whatever the test split is, which
    is not looked at. *)
Theorem cartesian_init_training_checked_first X y X' y' s (n1 n2 : nat) :
  rows X 0 = Ok n1 -> rows X 1 = Ok n2 -> n1 * n2 <> size y ->
  __init__ X y X' y' s = (Raise (ValueError training_message), s).
Proof.
  intros H1 H2 Hne. unfold __init__. py_unfold. rewrite H1, H2.
  apply Nat.eqb_neq in Hne. by rewrite Hne.
Qed.

(** X10: whatever calls have been made on a [TripleCartesianProd], [test()]
    and the full training set [train_next_batch(None)] return what they
    returned before those calls: only the sampler changes. *)
Theorem cartesian_calls_preserve_results s s' :
  later s s' ->
  (test s').1 = (test s).1 /\
  (train_next_batch None s').1 = (train_next_batch None s).1.
Proof.
  intros Hlater.
  destruct (cartesian_later_frame _ _ Hlater) as (HX & Hy & HX' & Hy').
  destruct s, s'. cbn in *. subst.
  unfold test, train_next_batch. py_unfold. cbn. split.
  - by destruct test_x0, test_y0.
  - by destruct train_x0, train_y0.
Qed.

(** X11: a constructed [TripleCartesianProd] keeps the size invariant of
    both splits for as long as it is used: after any calls it still holds
    the four arrays given to the constructor, and
    [len(X[0]) * len(X[1]) = y.size] for the training and the test split. *)
Theorem cartesian_constructed_invariant X y X' y' s0 s s' :
  __init__ X y X' y' s0 = (Ok tt, s) ->
  later s s' ->
  train_x s' = Some X /\ train_y s' = Some y /\
  test_x s' = Some X' /\ test_y s' = Some y' /\
  exists n1 n2 n1' n2',
    rows X 0 = Ok n1 /\ rows X 1 = Ok n2 /\ n1 * n2 = size y /\
    rows X' 0 = Ok n1' /\ rows X' 1 = Ok n2' /\ n1' * n2' = size y'.
Proof.
  intros Hinit Hlater.
  destruct (cartesian_init_inv _ _ _ _ _ _ Hinit)
    as (n1 & n2 & n1' & n2' & H1 & H2 & Ht & H1' & H2' & Ht' & ->).
  destruct (cartesian_later_frame _ _ Hlater) as (HX & Hy & HX' & Hy').
  cbn in *. split_and!; [done..|]. by exists n1, n2, n1', n2'.
Qed.

(** X12: a batch that draws an index beyond the first axis of the stored
    outputs raises [IndexError], and the sampler has advanced all the same:
    the indices of the failed batch are used up. *)
Theorem cartesian_batch_index_error s X y (A B : ndarray elt)
    (smp : sampler) (k n1 ny i : nat) :
  train_x s = Some X -> X !! 0 = Some A -> X !! 1 = Some B ->
  train_y s = Some y -> train_sampler s = Some smp ->
  len A = Ok n1 -> Forall (fun j => j < n1) (get_next k smp).1 ->
  len y = Ok ny -> i ∈ (get_next k smp).1 -> ny <= i ->
  train_next_batch (Some k) s =
    (Raise (IndexError "index is out of bounds for axis 0"),
     set_train_sampler (get_next k smp).2 s).
Proof.
  intros HX HA HB Hy Hs HlenA Hidx Hleny Hin Hle.
  rewrite (cartesian_batch_eval s X y A B smp k) by done. cbn zeta.
  rewrite (getitem_ok A n1 _ HlenA Hidx).
  by rewrite (getitem_raises y ny i _ Hleny Hin Hle).
Qed.

(** X13: a batch of size 0 has no rows: the first branch and the outputs
    come back with a first axis of length 0 and their other axes, and the
    second branch as stored. *)
Theorem cartesian_empty_batch {contract : BatchSamplerContract}
    s X y (A B : ndarray elt) (smp : sampler) (n1 ny : nat) :
  train_x s = Some X -> X !! 0 = Some A -> X !! 1 = Some B ->
  train_y s = Some y -> train_sampler s = Some smp ->
  len A = Ok n1 -> len y = Ok ny ->
  train_next_batch (Some 0) s =
    (Ok ([mk_ndarray (0 :: tail (shape A)) []; B],
         mk_ndarray (0 :: tail (shape y)) []),
     set_train_sampler (get_next 0 smp).2 s).
Proof.
  intros HX HA HB Hy Hs HlenA Hleny.
  rewrite (cartesian_batch_eval s X y A B smp 0) by done. cbn zeta.
  assert (Hnil : (get_next 0 smp).1 = []).
  { apply length_zero_iff_nil, get_next_length. }
  rewrite Hnil.
  by rewrite (getitem_nil A n1 HlenA), (getitem_nil y ny Hleny).
Qed.

(** X14: with outputs stored as a well-formed [(N1, N2)] table, row [j] of a
    batch holds the [N2] outputs of the [j]-th sampled index, and row [j] of
    the first branch of the batch is the row of the first branch at that
    index. *)
Theorem cartesian_batch_rows s X y (A B a yb : ndarray elt)
    (smp : sampler) (k n1 n2 j i : nat) :
  train_x s = Some X -> X !! 0 = Some A -> X !! 1 = Some B ->
  train_y s = Some y -> train_sampler s = Some smp ->
  well_formed A -> well_formed y -> shape y = [n1; n2] ->
  (train_next_batch (Some k) s).1 = Ok ([a; B], yb) ->
  (get_next k smp).1 !! j = Some i ->
  row a j = row A i /\ row yb j = row y i /\ length (row yb j) = n2.
Proof.
  intros HX HA HB Hy Hs HwA Hwy Hshape Hrun Hj.
  rewrite (cartesian_batch_eval s X y A B smp k) in Hrun by done.
  cbn zeta in Hrun.
  destruct (getitem A (get_next k smp).1) as [a0|] eqn:Ha; [|discriminate].
  destruct (getitem y (get_next k smp).1) as [yb0|] eqn:Hyb; [|discriminate].
  injection Hrun as <- <-.
  assert (Hrow : row yb0 j = row y i) by (eapply getitem_row; eauto).
  split_and!; [eapply getitem_row; eauto|exact Hrow|].
  rewrite Hrow.
  destruct (getitem_inv _ _ _ Hyb) as (ny & Hleny & Hall & _).
  rewrite (row_length y ny i Hwy Hleny).
  - unfold row_size. rewrite Hshape. cbn. lia.
  - eapply Forall_lookup_1 in Hall; eauto.
Qed.

End CartesianEdges.

(** ** [Triple]: batches of a standardized instance and of a single branch *)

Section TripleBatches.
Import Triple.
Context {elt : Type} {sampling : BatchSamplerAPI} {scaling : ScalerBackend elt}.
Implicit Types (X : list (ndarray elt)) (y : ndarray elt) (s : instance elt).

(** X15: after construction with [standardize=True], batches are drawn from
    the standardized branches and from the targets as given: the targets are
    never standardized. *)
Theorem triple_standardized_batch y y' s0 s
    (A B A' B' As Bs a b yb : ndarray elt) (stA stB : statistics) (n k : nat) :
  __init__ [A; B] y [A'; B'] y' true s0 = (Ok tt, s) ->
  len y = Ok n ->
  fit_statistics true true A = Ok stA -> apply_statistics stA A = Ok As ->
  fit_statistics true true B = Ok stB -> apply_statistics stB B = Ok Bs ->
  let indices := (get_next k (BatchSampler n true)).1 in
  getitem As indices = Ok a ->
  getitem Bs indices = Ok b ->
  getitem y indices = Ok yb ->
  train_next_batch (Some k) s =
    (Ok ([a; b], yb), set_train_sampler (get_next k (BatchSampler n true)).2 s).
Proof.
  intros Hinit Hy HfA HaA HfB HaB indices Ha Hb Hyb.
  destruct (triple_init_standardize_inv _ _ _ _ _ _ Hinit)
    as (n' & sts & Xs & Xs' & Hy' & _ & H1 & H2 & _ & ->).
  assert (n' = n) as -> by congruence. cbn in H1, H2.
  inversion H1 as [|? stA' ? sts1 HfA' H1']; subst.
  inversion H1' as [|? stB' ? sts2 HfB' H1'']; subst.
  inversion H1''; subst.
  assert (stA' = stA) as -> by congruence.
  assert (stB' = stB) as -> by congruence.
  inversion H2 as [|? ? As' ? ? Xs1 HaA' H2']; subst.
  inversion H2' as [|? ? Bs' ? ? Xs2 HaB' H2'']; subst.
  inversion H2''; subst.
  assert (As' = As) as -> by congruence.
  assert (Bs' = Bs) as -> by congruence.
  erewrite triple_batch_eval; [|reflexivity..]. cbn zeta.
  fold indices. by rewrite Ha, Hb, Hyb.
Qed.

(** X16: a [Triple] with a single branch is accepted by [__init__] and
    serves the full training set, but every sized batch raises the
    [IndexError] of the missing second branch, after the sampler has
    advanced and the first branch has been indexed. *)
Theorem triple_single_branch_batch y X' y' s0 (A : ndarray elt) (m n k : nat) :
  len A = Ok m -> len y = Ok n ->
  Forall (fun i => i < m) (get_next k (BatchSampler n true)).1 ->
  exists s,
    __init__ [A] y X' y' false s0 = (Ok tt, s) /\
    train_next_batch None s = (Ok ([A], y), s) /\
    train_next_batch (Some k) s =
      (Raise (IndexError "tuple index out of range"),
       set_train_sampler (get_next k (BatchSampler n true)).2 s).
Proof.
  intros HlenA Hy Hidx. eexists. split_and!.
  - rewrite triple_init_plain, Hy. reflexivity.
  - reflexivity.
  - unfold train_next_batch. py_unfold. cbn.
    destruct (get_next k (BatchSampler n true)) as [idx smp']. cbn in *.
    by rewrite (getitem_ok A m idx HlenA Hidx).
Qed.

End TripleBatches.

(** ** The further properties on concrete data *)

Section EdgeChecks.
Import Example.

Local Existing Instance spec_sampler.
Local Existing Instance centring.

(** No training arrays at all. *)
Lemma triple_init_standardize_empty_witness :
  (Triple.__init__ [] y_3x1 [A2_test; B2_test] y_2x1_test true Triple.blank).1 =
    Raise (ValueError "not enough values to unpack (expected 3, got 0)").
Proof.
  by rewrite (triple_init_standardize_empty [] y_3x1 [A2_test; B2_test]
                y_2x1_test Triple.blank (or_introl eq_refl)).
Defined.

(** Two training arrays against one test array: one branch is kept, and the
    second training array, which the scaler would refuse, is never looked
    at. *)
Lemma triple_init_standardize_truncates_witness :
  Triple.__init__ [A3; V3] y_3x1 [A2_test] y_2x1_test true Triple.blank =
    (Ok tt,
     Triple.mk_instance
       (Some [mk_ndarray [3; 1] [-10; 0; 10]%Z]) (Some y_3x1)
       (Some [mk_ndarray [2; 1] [80; 180]%Z]) (Some y_2x1_test)
       (Some (Some [Sklearn.mk_scaler true true (Some (20%Z, 1))]))
       (Some (BatchSampler 3 true))).
Proof.
  refine (proj1 (triple_init_standardize_truncates (sampling := spec_sampler)
                   (scaling := centring) [A3; V3] y_3x1 [A2_test] y_2x1_test
                   Triple.blank 3 [(20%Z, 1)]
                   [mk_ndarray [3; 1] [-10; 0; 10]%Z]
                   [mk_ndarray [2; 1] [80; 180]%Z] _ _ _ _ _ _));
    [exact Nat.lt_0_2|exact Nat.lt_0_1|reflexivity|repeat constructor..].
Defined.

(** New inputs are shifted by the training means 20 and 2; an input with two
    columns is refused by the scaler fitted on one column. *)
Lemma triple_transform_inputs_standardized_witness :
  Triple.transform_inputs [C3; C3] (triple true) =
    (Ok [mk_ndarray [3; 1] [-16; -14; -12]%Z; mk_ndarray [3; 1] [2; 4; 6]%Z],
     triple true) /\
  Triple.transform_inputs [M22; C3] (triple true) =
    (Raise (ValueError "X has a different number of features"), triple true).
Proof.
  assert (Hsts : forall sts : list (Z * nat),
    Forall2 (fun (A : ndarray Z) st => fit_statistics true true A = Ok st)
      [A3; B3] sts -> sts = [(20%Z, 1); (2%Z, 1)]).
  { intros sts H.
    inversion H as [|? st1 ? sts1 Hf1 H']; subst.
    inversion H' as [|? st2 ? sts2 Hf2 H'']; subst.
    inversion H''; subst. vm_compute in Hf1, Hf2.
    injection Hf1 as <-. by injection Hf2 as <-. }
  split.
  - destruct (triple_transform_inputs_standardized [A3; B3] y_3x1
                [A2_test; B2_test] y_2x1_test Triple.blank (triple true)
                (triple true) [C3; C3] eq_refl (Triple.later_now _))
      as (sts & Hfit & ->).
    by rewrite (Hsts sts Hfit).
  - destruct (triple_transform_inputs_standardized [A3; B3] y_3x1
                [A2_test; B2_test] y_2x1_test Triple.blank (triple true)
                (triple true) [M22; C3] eq_refl (Triple.later_now _))
      as (sts & Hfit & ->).
    by rewrite (Hsts sts Hfit).
Defined.

Lemma triple_transform_inputs_reproduces_stored_witness :
  exists Xs Xs',
    Triple.train_x (triple true) = Some Xs /\
    Triple.test_x (triple true) = Some Xs' /\
    Triple.transform_inputs [A3; B3] (triple true) = (Ok Xs, triple true) /\
    Triple.transform_inputs [A2_test; B2_test] (triple true) =
      (Ok Xs', triple true).
Proof.
  exact (triple_transform_inputs_reproduces_stored [A3; B3] y_3x1
           [A2_test; B2_test] y_2x1_test Triple.blank (triple true)
           (triple true) eq_refl (Triple.later_now _)).
Defined.

(** After a batch of two from the standardized example. *)
Lemma triple_calls_preserve_results_witness :
  let s' := (Triple.train_next_batch (Some 2) (triple true)).2 in
  (Triple.test s').1 = (Triple.test (triple true)).1 /\
  (Triple.train_next_batch None s').1 =
    (Triple.train_next_batch None (triple true)).1.
Proof.
  destruct (triple_calls_preserve_results (triple true)
              (Triple.train_next_batch (Some 2) (triple true)).2
              (Triple.later_batch _ _ _ (Triple.later_now _)))
    as (Htest & Hfull & _).
  split; [exact Htest|exact Hfull].
Defined.

(** Two rows in the first branch against three targets: the first index
    drawn is 2. *)
Lemma triple_misaligned_rows_fail_at_batch_witness :
  exists s,
    Triple.__init__ [A2; B3] y_3x1 [A2_test; B2_test] y_2x1_test false
      Triple.blank = (Ok tt, s) /\
    (Triple.train_next_batch (Some 1) s).1 =
      Raise (IndexError "index is out of bounds for axis 0").
Proof.
  destruct (triple_misaligned_rows_fail_at_batch [A2; B3] y_3x1
              [A2_test; B2_test] y_2x1_test Triple.blank A2 2 3 1 2)
    as (s & Hinit & Hrun); try reflexivity; [vm_compute; constructor|].
  exists s. split; [exact Hinit|by rewrite Hrun].
Defined.

Lemma cartesian_init_short_tuple_witness :
  TripleCartesianProd.__init__ [A3] y_3x4 [A3; B4] y_3x4
    TripleCartesianProd.blank =
    (Raise (IndexError "tuple index out of range"), TripleCartesianProd.blank).
Proof.
  apply cartesian_init_short_tuple; [cbn; lia|].
  intros A [= <-]. by exists 3.
Defined.

(** Eleven training outputs and no test arrays at all. *)
Lemma cartesian_init_training_checked_first_witness :
  TripleCartesianProd.__init__ [A3; B4] y_flat11 [] y_flat10
    TripleCartesianProd.blank =
    (Raise (ValueError TripleCartesianProd.training_message),
     TripleCartesianProd.blank).
Proof.
  apply (cartesian_init_training_checked_first [A3; B4] y_flat11 [] y_flat10
           TripleCartesianProd.blank 3 4); try reflexivity.
  vm_compute. discriminate.
Defined.

Lemma cartesian_calls_preserve_results_witness :
  let s' := (TripleCartesianProd.train_next_batch (Some 2) (cartesian y_3x4)).2 in
  (TripleCartesianProd.test s').1 = (TripleCartesianProd.test (cartesian y_3x4)).1 /\
  (TripleCartesianProd.train_next_batch None s').1 =
    (TripleCartesianProd.train_next_batch None (cartesian y_3x4)).1.
Proof.
  exact (cartesian_calls_preserve_results (cartesian y_3x4)
           (TripleCartesianProd.train_next_batch (Some 2) (cartesian y_3x4)).2
           (TripleCartesianProd.later_batch _ _ _ (TripleCartesianProd.later_now _))).
Defined.

Lemma cartesian_constructed_invariant_witness :
  let s' := (TripleCartesianProd.train_next_batch (Some 2) (cartesian y_3x4)).2 in
  TripleCartesianProd.train_y s' = Some y_3x4 /\
  exists n1 n2, rows [A3; B4] 0 = Ok n1 /\ rows [A3; B4] 1 = Ok n2 /\
    n1 * n2 = size y_3x4.
Proof.
  destruct (cartesian_constructed_invariant [A3; B4] y_3x4 [A3; B4] y_3x4
              TripleCartesianProd.blank (cartesian y_3x4)
              (TripleCartesianProd.train_next_batch (Some 2) (cartesian y_3x4)).2
              eq_refl
              (TripleCartesianProd.later_batch _ _ _ (TripleCartesianProd.later_now _)))
    as (_ & Hy & _ & _ & n1 & n2 & _ & _ & H1 & H2 & Ht & _).
  split; [exact Hy|]. by exists n1, n2.
Defined.

(** Four rows against three, outputs stored as a [(3, 4)] table: the first
    index drawn is 3. *)
Lemma cartesian_batch_index_error_witness :
  let s := (TripleCartesianProd.__init__ [A4; B3] y_3x4 [A4; B3] y_3x4
              TripleCartesianProd.blank).2 in
  (TripleCartesianProd.train_next_batch (Some 1) s).1 =
    Raise (IndexError "index is out of bounds for axis 0") /\
  TripleCartesianProd.train_sampler
    (TripleCartesianProd.train_next_batch (Some 1) s).2 =
    Some (SamplerSpec.get_next descending 1
            (SamplerSpec.construct descending 4 true)).2.
Proof.
  cbn zeta.
  rewrite (cartesian_batch_index_error (sampling := spec_sampler)
             (TripleCartesianProd.__init__ [A4; B3] y_3x4 [A4; B3] y_3x4
                TripleCartesianProd.blank).2
             [A4; B3] y_3x4 A4 B3 (SamplerSpec.construct descending 4 true)
             1 4 3 3); try reflexivity; [done|..]; vm_compute; repeat constructor.
Defined.

Lemma cartesian_empty_batch_witness :
  (TripleCartesianProd.train_next_batch (Some 0) (cartesian y_3x4)).1 =
    Ok ([mk_ndarray [0; 1] []; B4], mk_ndarray [0; 4] []).
Proof.
  by rewrite (cartesian_empty_batch (contract := descending_contract)
                (cartesian y_3x4) [A3; B4] y_3x4 A3 B4
                (SamplerSpec.construct descending 3 true) 3 3
                eq_refl eq_refl eq_refl eq_refl eq_refl eq_refl eq_refl).
Defined.

(** The first row of a batch of two from the [(3, 4)] table is the row of
    index 2. *)
Lemma cartesian_batch_rows_witness :
  row (mk_ndarray [2; 4] [8; 9; 10; 11; 4; 5; 6; 7]%Z) 0 = row y_3x4 2.
Proof.
  eapply (cartesian_batch_rows (sampling := spec_sampler) (cartesian y_3x4) [A3; B4] y_3x4 A3 B4
            (mk_ndarray [2; 1] [30; 20]%Z)
            (mk_ndarray [2; 4] [8; 9; 10; 11; 4; 5; 6; 7]%Z)
            (SamplerSpec.construct descending 3 true) 2 3 4 0 2);
    reflexivity.
Defined.

Lemma triple_standardized_batch_witness :
  (Triple.train_next_batch (Some 2) (triple true)).1 =
    Ok ([mk_ndarray [2; 1] [10; 0]%Z; mk_ndarray [2; 1] [1; 0]%Z],
        mk_ndarray [2; 1] [9; 8]%Z).
Proof.
  by rewrite (triple_standardized_batch (sampling := spec_sampler)
                (scaling := centring) y_3x1 y_2x1_test Triple.blank
                (triple true) A3 B3 A2_test B2_test
                (mk_ndarray [3; 1] [-10; 0; 10]%Z)
                (mk_ndarray [3; 1] [-1; 0; 1]%Z)
                (mk_ndarray [2; 1] [10; 0]%Z) (mk_ndarray [2; 1] [1; 0]%Z)
                (mk_ndarray [2; 1] [9; 8]%Z) (20%Z, 1) (2%Z, 1) 3 2
                eq_refl eq_refl eq_refl eq_refl eq_refl eq_refl
                eq_refl eq_refl eq_refl).
Defined.

Lemma triple_single_branch_batch_witness :
  exists s,
    Triple.__init__ [A3] y_3x1 [A2_test] y_2x1_test false Triple.blank =
      (Ok tt, s) /\
    Triple.train_next_batch None s = (Ok ([A3], y_3x1), s) /\
    (Triple.train_next_batch (Some 2) s).1 =
      Raise (IndexError "tuple index out of range").
Proof.
  destruct (triple_single_branch_batch y_3x1 [A2_test] y_2x1_test Triple.blank
              A3 3 3 2) as (s & Hinit & Hfull & Hrun);
    try reflexivity; [vm_compute; repeat constructor|].
  exists s. split_and!; [exact Hinit|exact Hfull|by rewrite Hrun].
Defined.

End EdgeChecks.
